(** * Recidivism labels: the [create_labels] pipeline of the labels notebook

    The notebook builds its label table with a script of
    [drop table if exists] / [create table ... as select] statements run
    against an SQLite store.  This file embeds the store (persistent and
    temporary tables, name resolution), the six [select] statements of the
    script, and [create_labels] itself, and proves the properties the
    specification states about them.

    Two library functions are taken as parameters of the development: the
    store's [date()] function, which maps a value to NULL or to a text, and
    [dateutil]'s [parse(..., fuzzy=True)], which raises or returns a
    datetime.  Both can read the clock ([date('now')], a text without a
    year): a parameter stands for the function at the time of one call.
    REAL values are left out of the value type.  Tables and
    columns go by their lower-case names.  The rows of a [select] come in
    the order in which SQLite produces them: a scan gives the rows in the
    order of the table, [group by] gives the groups in ascending order of
    the key, [distinct] gives a row the first time it is met.

    [create_labels] splices its three arguments between quotes into the
    text of the script.  The embedding takes them as the text literals they
    make; they make these when they hold neither a quote nor a NUL
    character ([text_literals]), and the theorems about a run of the
    script carry that hypothesis. *)

From Stdlib Require Import ZArith String Ascii List Bool Lia DecimalString DecimalZ.
From stdpp Require Import base option list gmap strings fin_maps sorting.

#[local] Set Warnings "-clear-no-such-hyp".

Local Open Scope string_scope.
Local Open Scope Z_scope.

(** ** Values of the store *)

Module Sql.

Inductive value :=
| VNull
| VInt (n : Z)
| VText (s : string)
| VBlob (s : string).

#[global] Instance value_eq_dec : EqDecision value.
Proof. solve_decision. Defined.

Definition is_null (v : value) : bool :=
  match v with VNull => true | _ => false end.

(** Comparison of two non-NULL values with no affinity conversion and the
    BINARY collation: an INTEGER sorts before a TEXT, a TEXT before a BLOB;
    texts and blobs compare bytewise. *)
Definition compare_values (a b : value) : comparison :=
  match a, b with
  | VInt x, VInt y => Z.compare x y
  | VInt _, _ => Lt
  | VText _, VInt _ => Gt
  | VText x, VText y => String.compare x y
  | VText _, _ => Lt
  | VBlob x, VBlob y => String.compare x y
  | VBlob _, _ => Gt
  | VNull, _ => Eq
  end.

(** The order of the sorter behind [group by] and [order by]: NULL sorts
    first, then the integers, the texts and the blobs. *)
Definition sort_compare (a b : value) : comparison :=
  match a, b with
  | VNull, VNull => Eq
  | VNull, _ => Lt
  | _, VNull => Gt
  | _, _ => compare_values a b
  end.

Definition sorts_before (a b : value) : Prop := sort_compare a b ≠ Gt.

#[global] Instance sorts_before_dec : RelDecision sorts_before.
Proof. intros a b. unfold sorts_before. solve_decision. Defined.

(** A comparison operator applied to NULL is NULL. *)
Definition sql_cmp (a b : value) : option comparison :=
  match a, b with
  | VNull, _ | _, VNull => None
  | _, _ => Some (compare_values a b)
  end.

Definition sql_ge (a b : value) : option bool :=
  (λ c, match c with Lt => false | _ => true end) <$> sql_cmp a b.

Definition sql_le (a b : value) : option bool :=
  (λ c, match c with Gt => false | _ => true end) <$> sql_cmp a b.

Definition sql_eq (a b : value) : option bool :=
  (λ c, match c with Eq => true | _ => false end) <$> sql_cmp a b.

(** Three-valued [and]. *)
Definition sql_and (a b : option bool) : option bool :=
  match a, b with
  | Some false, _ | _, Some false => Some false
  | Some true, Some true => Some true
  | _, _ => None
  end.

(** A [where] or [on] clause keeps a row only when its condition is true. *)
Definition holds (c : option bool) : bool :=
  match c with Some true => true | _ => false end.

(** The [max] aggregate skips NULLs and is NULL on a group without a
    non-NULL value. *)
Definition max_value (a b : value) : value :=
  match sql_cmp a b with
  | Some Lt => b
  | Some _ => a
  | None => if is_null a then b else a
  end.

Definition sql_max (vs : list value) : value := foldr max_value VNull vs.

(** *** [cast(... as integer)] *)

Definition is_space (c : ascii) : bool :=
  let n := N_of_ascii c in ((9 <=? n) && (n <=? 13) || (n =? 32))%N.

Fixpoint skip_spaces (s : string) : string :=
  match s with
  | String c r => if is_space c then skip_spaces r else s
  | EmptyString => s
  end.

Definition digit_of (c : ascii) : option Z :=
  let n := N_of_ascii c in
  if ((48 <=? n) && (n <=? 57))%N then Some (Z.of_N n - 48) else None.

(** The value of the longest prefix of decimal digits, [acc] being the value
    of the digits already read. *)
Fixpoint digits_prefix (s : string) (acc : Z) : Z :=
  match s with
  | String c r =>
      match digit_of c with
      | Some d => digits_prefix r (10 * acc + d)
      | None => acc
      end
  | EmptyString => acc
  end.

Definition clamp64 (z : Z) : Z :=
  Z.max (- 2 ^ 63) (Z.min (2 ^ 63 - 1) z).

Definition text_to_integer (s : string) : Z :=
  match skip_spaces s with
  | String "-" r => clamp64 (- digits_prefix r 0)
  | String "+" r => clamp64 (digits_prefix r 0)
  | r => clamp64 (digits_prefix r 0)
  end.

Definition cast_integer (v : value) : value :=
  match v with
  | VNull => VNull
  | VInt n => VInt n
  | VText s | VBlob s => VInt (text_to_integer s)
  end.

(** ** Tables *)

Definition row := list value.

Record table := Table { columns : list string; rows : list row }.

#[global] Instance table_eq_dec : EqDecision table.
Proof. solve_decision. Defined.

Definition cell (r : row) (i : nat) : value := default VNull (r !! i).

Inductive sql_error :=
| no_such_table (name : string)
| no_such_column (name : string)
| table_already_exists (name : string).

Inductive result (A : Type) :=
| Ok (a : A)
| Err (e : sql_error).
Arguments Ok {A} a.
Arguments Err {A} e.

#[global] Instance result_ret : MRet result := λ A a, Ok a.
#[global] Instance result_bind : MBind result :=
  λ A B f m, match m with Ok a => f a | Err e => Err e end.

(** [select distinct]: a row is produced the first time it is met. *)
Fixpoint distinct_from {A} `{EqDecision A} (seen l : list A) : list A :=
  match l with
  | [] => []
  | x :: l' =>
      if decide (x ∈ seen) then distinct_from seen l'
      else x :: distinct_from (x :: seen) l'
  end.

Definition distinct {A} `{EqDecision A} (l : list A) : list A := distinct_from [] l.

Fixpoint index_of (c : string) (cs : list string) : option nat :=
  match cs with
  | [] => None
  | c' :: cs' => if String.eqb c c' then Some O else S <$> index_of c cs'
  end.

Definition column (t : table) (c : string) : result nat :=
  match index_of c (columns t) with
  | Some i => Ok i
  | None => Err (no_such_column c)
  end.

End Sql.
Export Sql.


(** ** The store

    A database file holds the persistent tables; every connection has its
    own temporary tables, invisible to the other connections, also to those
    on the same file.  An
    unqualified table name is looked up in the temporary tables of the
    connection first, then in the persistent tables of its database. *)

Record connection := Connection { conn_id : nat; conn_db : string }.

#[global] Instance connection_eq_dec : EqDecision connection.
Proof. solve_decision. Defined.

#[global] Instance connection_countable : Countable connection.
Proof.
  refine (inj_countable' (λ c, (conn_id c, conn_db c)) (λ p, Connection p.1 p.2) _).
  by intros [].
Defined.

Record world := World {
  persistent : gmap (string * string) table;
  temporary : gmap (connection * string) table
}.

Inductive schema := Main | Temp.

Definition find_table (c : connection) (w : world) (n : string) : option table :=
  match temporary w !! (c, n) with
  | Some t => Some t
  | None => persistent w !! (conn_db c, n)
  end.

Definition from (c : connection) (w : world) (n : string) : result table :=
  match find_table c w n with
  | Some t => Ok t
  | None => Err (no_such_table n)
  end.

Definition drop_table_if_exists (c : connection) (n : string) (w : world) : world :=
  match temporary w !! (c, n) with
  | Some _ => World (persistent w) (delete (c, n) (temporary w))
  | None => World (delete (conn_db c, n) (persistent w)) (temporary w)
  end.

Definition has_table (s : schema) (c : connection) (n : string) (w : world) : bool :=
  match s with
  | Main => bool_decide (is_Some (persistent w !! (conn_db c, n)))
  | Temp => bool_decide (is_Some (temporary w !! (c, n)))
  end.

Definition store_table (s : schema) (c : connection) (n : string) (t : table)
    (w : world) : world :=
  match s with
  | Main => World (<[(conn_db c, n) := t]> (persistent w)) (temporary w)
  | Temp => World (persistent w) (<[(c, n) := t]> (temporary w))
  end.

(** A [select] is evaluated against the names the connection sees. *)
Definition query := (string → result table) → result table.

Inductive stmt :=
| DropTableIfExists (n : string)
| CreateTableAs (s : schema) (n : string) (q : query).

(** [create table] first checks that the name is free in the target schema,
    then evaluates the [select]. *)
Definition execute (c : connection) (s : stmt) (w : world) : result world :=
  match s with
  | DropTableIfExists n => Ok (drop_table_if_exists c n w)
  | CreateTableAs sch n q =>
      if has_table sch c n w then Err (table_already_exists n)
      else t ← q (from c w); mret (store_table sch c n t w)
  end.

(** The statements run one after the other, each in its own implicit
    transaction: on an error the effects of the earlier statements stay. *)
Fixpoint executescript (c : connection) (script : list stmt) (w : world)
    : world * option sql_error :=
  match script with
  | [] => (w, None)
  | s :: script' =>
      match execute c s w with
      | Ok w' => executescript c script' w'
      | Err e => (w, Some e)
      end
  end.

(** [pd.read_sql('select * from <n>', conn)] *)
Definition read_sql (n : string) (conn : connection) (w : world) : result table :=
  from conn w n.

(** ** Python side *)

Record datetime := Datetime { year : Z; month : Z; day : Z }.

Inductive exn :=
| ParserError
| OperationalError (e : sql_error)
| DatabaseError (e : sql_error).

Inductive outcome (A : Type) :=
| Return (a : A)
| Raise (e : exn).
Arguments Return {A} a.
Arguments Raise {A} e.

(** ['{}'.format(n)] on an integer. *)
Definition format_int (n : Z) : string := NilEmpty.string_of_int (Z.to_int n).

Definition text_or_null (o : option string) : value := from_option VText VNull o.

Fixpoint has_char (c : ascii) (s : string) : bool :=
  match s with
  | EmptyString => false
  | String c' s' => if Ascii.eqb c c' then true else has_char c s'
  end.

(** ['{}'.format(s)] between two quotes is the text literal [s] when [s]
    holds no quote, which would end the literal, and no NUL character, at
    which [executescript] refuses or cuts the script. *)
Definition plain (s : string) : Prop :=
  has_char "'" s = false ∧ has_char "000" s = false.

(** The three arguments of [create_labels] make the text literals they
    stand for in the script. *)
Definition text_literals (features_end prediction_start prediction_end : string) : Prop :=
  plain features_end ∧ plain prediction_start ∧ plain prediction_end.

(** ** The statements of the script *)

Definition sentences_prep_columns : list string :=
  ["inmate_doc_number"; "sentence_component"; "sentence_begin_date"; "sentence_end_date"].
Definition release_dates_columns : list string :=
  ["inmate_doc_number"; "sentence_end_date"].
Definition admit_columns : list string :=
  ["inmate_doc_number"; "sentence_component"; "sentence_begin_date"].
Definition recidivism_columns : list string :=
  ["inmate_doc_number"; "sentence_end_date"; "sentence_begin_date"; "recidivism"].
Definition recidivism_labels_columns : list string :=
  ["inmate_doc_number"; "recidivism"].

(** [where d >= lo and d <= hi] *)
Definition between (lo hi : string) (d : value) : option bool :=
  sql_and (sql_ge d (VText lo)) (sql_le d (VText hi)).

(** [select inmate_doc_number, sentence_end_date from sentences_prep
     where sentence_end_date >= '2000-01-01' and sentence_end_date <= '{features_end}'] *)
Definition release_dates_rows (features_end : string) (i e : nat) (prep : list row)
    : list row :=
  (λ r, [cell r i; cell r e]) <$>
  filter (λ r, holds (between "2000-01-01" features_end (cell r e))) prep.

Definition select_release_dates (features_end : string) (sentences_prep : table)
    : result table :=
  i ← column sentences_prep "inmate_doc_number";
  e ← column sentences_prep "sentence_end_date";
  mret (Table release_dates_columns
          (release_dates_rows features_end i e (rows sentences_prep))).

(** The keys of [group by]: the distinct values of the column, in the
    order of the sorter. *)
Definition group_keys (i : nat) (t : list row) : list value :=
  merge_sort sorts_before (distinct ((λ r, cell r i) <$> t)).

(** [select inmate_doc_number, max(sentence_end_date) sentence_end_date
     from release_dates group by inmate_doc_number]: one row per distinct
    identifier, NULL being a group of its own. *)
Definition last_exit_rows (i e : nat) (release_dates : list row) : list row :=
  (λ k, [k; sql_max ((λ r, cell r e) <$> filter (λ r, cell r i = k) release_dates)]) <$>
  group_keys i release_dates.

Definition select_last_exit (release_dates : table) : result table :=
  i ← column release_dates "inmate_doc_number";
  e ← column release_dates "sentence_end_date";
  mret (Table release_dates_columns (last_exit_rows i e (rows release_dates))).

(** [select inmate_doc_number, sentence_component, sentence_begin_date
     from sentences_prep
     where sentence_begin_date >= '{prediction_start}'
       and sentence_begin_date <= '{prediction_end}' and sentence_component = 1] *)
Definition admit_rows (prediction_start prediction_end : string) (i c b : nat)
    (prep : list row) : list row :=
  (λ r, [cell r i; cell r c; cell r b]) <$>
  filter (λ r, holds (sql_and (between prediction_start prediction_end (cell r b))
                              (sql_eq (cell r c) (VInt 1)))) prep.

Definition select_admit (prediction_start prediction_end : string)
    (sentences_prep : table) : result table :=
  i ← column sentences_prep "inmate_doc_number";
  c ← column sentences_prep "sentence_component";
  b ← column sentences_prep "sentence_begin_date";
  mret (Table admit_columns
          (admit_rows prediction_start prediction_end i c b (rows sentences_prep))).

(** [case when a.sentence_begin_date is null then 0 else 1 end] *)
Definition recidivism_flag (begin_date : value) : value :=
  if is_null begin_date then VInt 0 else VInt 1.

(** The rows a left row [r] contributes to the left join: one per matching
    right row, or a single row padded with NULL when nothing matches. *)
Definition left_join_row (ri re ai ab : nat) (admit_table : list row) (r : row) : list row :=
  match filter (λ a, holds (sql_eq (cell r ri) (cell a ai))) admit_table with
  | [] => [[cell r ri; cell r re; VNull; recidivism_flag VNull]]
  | matches =>
      (λ a, [cell r ri; cell r re; cell a ab; recidivism_flag (cell a ab)]) <$> matches
  end.

(** [select r.inmate_doc_number, r.sentence_end_date, a.sentence_begin_date,
     case ... end recidivism
     from last_exit r left join admit a on r.inmate_doc_number = a.inmate_doc_number] *)
Definition recidivism_rows (ri re ai ab : nat) (last_exit admit_table : list row) : list row :=
  last_exit ≫= left_join_row ri re ai ab admit_table.

Definition select_recidivism (last_exit admit_table : table) : result table :=
  ri ← column last_exit "inmate_doc_number";
  re ← column last_exit "sentence_end_date";
  ab ← column admit_table "sentence_begin_date";
  ai ← column admit_table "inmate_doc_number";
  mret (Table recidivism_columns
          (recidivism_rows ri re ai ab (rows last_exit) (rows admit_table))).

Definition recidivism_labels_rows (i l : nat) (recidivism : list row) : list row :=
  distinct ((λ r, [cell r i; cell r l]) <$> recidivism).

(** [select distinct inmate_doc_number, recidivism from recidivism] *)
Definition select_recidivism_labels (recidivism : table) : result table :=
  i ← column recidivism "inmate_doc_number";
  l ← column recidivism "recidivism";
  mret (Table recidivism_labels_columns (recidivism_labels_rows i l (rows recidivism))).

Section Script.

(** The store's [date()] function: NULL, or the text of a date. *)
Variable date : value → option string.

(** [dateutil.parser.parse(s, fuzzy = True)]: [None] when it raises. *)
Variable parse : string → option datetime.

(** The connection of the notebook's global cursor [cur]. *)
Variable cur : connection.

(** [select inmate_doc_number,
     cast(inmate_sentence_component as integer) as sentence_component,
     date([sentence_begin_date_(for_max)]) as sentence_begin_date,
     date(actual_sentence_end_date) as sentence_end_date from sentences] *)
Definition sentences_prep_rows (i c b e : nat) (sentences : list row) : list row :=
  (λ r, [cell r i; cast_integer (cell r c);
         text_or_null (date (cell r b)); text_or_null (date (cell r e))]) <$> sentences.

Definition select_sentences_prep (sentences : table) : result table :=
  i ← column sentences "inmate_doc_number";
  c ← column sentences "inmate_sentence_component";
  b ← column sentences "sentence_begin_date_(for_max)";
  e ← column sentences "actual_sentence_end_date";
  mret (Table sentences_prep_columns (sentences_prep_rows i c b e (rows sentences))).

Definition release_dates_name (end_x_year : Z) : string :=
  "release_dates_2000_" +:+ format_int end_x_year.
Definition last_exit_name (end_x_year : Z) : string :=
  "last_exit_2000_" +:+ format_int end_x_year.
Definition admit_name (start_y_year end_y_year : Z) : string :=
  "admit_" +:+ format_int start_y_year +:+ "_" +:+ format_int end_y_year.
Definition recidivism_name (start_y_year end_y_year : Z) : string :=
  "recidivism_" +:+ format_int start_y_year +:+ "_" +:+ format_int end_y_year.
Definition recidivism_labels_name (start_y_year end_y_year : Z) : string :=
  "recidivism_labels_" +:+ format_int start_y_year +:+ "_" +:+ format_int end_y_year.

(** The script with the dates and the years formatted into it.  The three
    dates are the text literals of the [where] clauses, the arguments being
    [text_literals]. *)
Definition sql_script (features_end prediction_start prediction_end : string)
    (end_x_year start_y_year end_y_year : Z) : list stmt :=
  [ DropTableIfExists "sentences_prep";
    CreateTableAs Main "sentences_prep"
      (λ from, from "sentences" ≫= select_sentences_prep);
    DropTableIfExists (release_dates_name end_x_year);
    CreateTableAs Temp (release_dates_name end_x_year)
      (λ from, from "sentences_prep" ≫= select_release_dates features_end);
    DropTableIfExists (last_exit_name end_x_year);
    CreateTableAs Temp (last_exit_name end_x_year)
      (λ from, from (release_dates_name end_x_year) ≫= select_last_exit);
    DropTableIfExists (admit_name start_y_year end_y_year);
    CreateTableAs Temp (admit_name start_y_year end_y_year)
      (λ from, from "sentences_prep" ≫= select_admit prediction_start prediction_end);
    DropTableIfExists (recidivism_name start_y_year end_y_year);
    CreateTableAs Temp (recidivism_name start_y_year end_y_year)
      (λ from, r ← from (last_exit_name end_x_year);
               a ← from (admit_name start_y_year end_y_year);
               select_recidivism r a);
    DropTableIfExists (recidivism_labels_name start_y_year end_y_year);
    CreateTableAs Main (recidivism_labels_name start_y_year end_y_year)
      (λ from, from (recidivism_name start_y_year end_y_year)
               ≫= select_recidivism_labels) ].

(** The function of the notebook.  The world is threaded explicitly; the
    script runs on the global cursor, the final read on [conn].  The three
    arguments are spliced between quotes into the text of the script: the
    definition is the function of the notebook on arguments that satisfy
    [text_literals], and says nothing of a call whose argument holds a
    quote. *)
Definition create_labels (features_end prediction_start prediction_end : string)
    (conn : connection) (w : world) : world * outcome table :=
  match parse features_end with
  | None => (w, Raise ParserError)
  | Some px =>
  match parse prediction_start with
  | None => (w, Raise ParserError)
  | Some ps =>
  match parse prediction_end with
  | None => (w, Raise ParserError)
  | Some pe =>
      let end_x_year := year px in
      let start_y_year := year ps in
      let end_y_year := year pe in
      match executescript cur
              (sql_script features_end prediction_start prediction_end
                          end_x_year start_y_year end_y_year) w with
      | (w', Some e) => (w', Raise (OperationalError e))
      | (w', None) =>
          match read_sql (recidivism_labels_name start_y_year end_y_year) conn w' with
          | Ok df_label => (w', Return df_label)
          | Err e => (w', Raise (DatabaseError e))
          end
      end
  end end end.

End Script.

(** [drop table if exists n; create table n as ...] where the [select]
    evaluates to [t]. *)
Definition rebuild (s : schema) (c : connection) (n : string) (t : table) (w : world)
    : world :=
  store_table s c n t (drop_table_if_exists c n w).

(** A [create table n] in the persistent schema fails after the [drop] when
    the name was taken both by a temporary and by a persistent table: the
    [drop] removes the temporary one only. *)
Definition clash (c : connection) (n : string) (w : world) : Prop :=
  is_Some (temporary w !! (c, n)) ∧ is_Some (persistent w !! (conn_db c, n)).


(** ** The derived tables as functions of the rows of [sentences_prep] *)

Definition sentences_prep (prep : list row) : table :=
  Table sentences_prep_columns prep.

Definition release_dates (features_end : string) (prep : list row) : table :=
  Table release_dates_columns (release_dates_rows features_end 0 3 prep).

Definition last_exit (features_end : string) (prep : list row) : table :=
  Table release_dates_columns
    (last_exit_rows 0 1 (rows (release_dates features_end prep))).

Definition admit_table (prediction_start prediction_end : string) (prep : list row) : table :=
  Table admit_columns (admit_rows prediction_start prediction_end 0 1 2 prep).

Definition recidivism (features_end prediction_start prediction_end : string)
    (prep : list row) : table :=
  Table recidivism_columns
    (recidivism_rows 0 1 0 2 (rows (last_exit features_end prep))
                     (rows (admit_table prediction_start prediction_end prep))).

Definition recidivism_labels (features_end prediction_start prediction_end : string)
    (prep : list row) : table :=
  Table recidivism_labels_columns
    (recidivism_labels_rows 0 3
       (rows (recidivism features_end prediction_start prediction_end prep))).

(** The world a complete run of the script leaves. *)
Definition final_world (cur : connection)
    (features_end prediction_start prediction_end : string)
    (end_x_year start_y_year end_y_year : Z) (prep : list row) (w : world) : world :=
  rebuild Main cur (recidivism_labels_name start_y_year end_y_year)
    (recidivism_labels features_end prediction_start prediction_end prep)
  (rebuild Temp cur (recidivism_name start_y_year end_y_year)
    (recidivism features_end prediction_start prediction_end prep)
  (rebuild Temp cur (admit_name start_y_year end_y_year)
    (admit_table prediction_start prediction_end prep)
  (rebuild Temp cur (last_exit_name end_x_year) (last_exit features_end prep)
  (rebuild Temp cur (release_dates_name end_x_year) (release_dates features_end prep)
  (rebuild Main cur "sentences_prep" (sentences_prep prep) w))))).

(** The membership of a text in the inclusive window [[lo, hi]], in the
    order the store compares texts. *)
Definition in_window (lo hi : string) (d : value) : Prop :=
  ∃ s, d = VText s ∧ String.leb lo s = true ∧ String.leb s hi = true.

(** The individual [k] has a release in the historical window that ends
    with [features_end]: a row of [sentences_prep] with that identifier and
    an end date between 2000-01-01 and [features_end]. *)
Definition released (features_end : string) (prep : list row) (k : value) : Prop :=
  ∃ r, r ∈ prep ∧ cell r 0 = k ∧ in_window "2000-01-01" features_end (cell r 3).

(** The individual [k] has a sentence record with component number 1 whose
    begin date is in the prediction window. *)
Definition readmitted (prediction_start prediction_end : string) (prep : list row)
    (k : value) : Prop :=
  ∃ r, r ∈ prep ∧ cell r 0 = k ∧ cell r 1 = VInt 1 ∧
       in_window prediction_start prediction_end (cell r 2).

(** The end dates of the in-window releases of [k]. *)
Definition release_ends (features_end : string) (prep : list row) (k : value)
    : list value :=
  (λ r, cell r 1) <$> filter (λ r, cell r 0 = k) (rows (release_dates features_end prep)).

(** [prep] is what [sentences_prep] gets from the [sentences] table the
    connection [c] sees in [w]. *)
Definition prepared (date : value → option string) (c : connection) (w : world)
    (prep : list row) : Prop :=
  ∃ S, find_table c w "sentences" = Some S ∧
       select_sentences_prep date S = Ok (sentences_prep prep).

(** The names the script drops and creates. *)
Definition script_names (end_x_year start_y_year end_y_year : Z) : list string :=
  [ "sentences_prep"; release_dates_name end_x_year; last_exit_name end_x_year;
    admit_name start_y_year end_y_year; recidivism_name start_y_year end_y_year;
    recidivism_labels_name start_y_year end_y_year ].

(** ** Calendar dates in ISO format *)

Definition digit_char (n : Z) : ascii := ascii_of_N (Z.to_N (48 + n mod 10)).

(** The [k] low decimal digits of [n], most significant first. *)
Fixpoint pad (k : nat) (n : Z) : string :=
  match k with
  | O => EmptyString
  | S k' => pad k' (n / 10) +:+ String (digit_char n) EmptyString
  end.

(** [YYYY-MM-DD] *)
Definition isoformat (d : datetime) : string :=
  pad 4 (year d) +:+ "-" +:+ pad 2 (month d) +:+ "-" +:+ pad 2 (day d).

Definition is_leap (y : Z) : bool :=
  ((y mod 4 =? 0) && negb (y mod 100 =? 0) || (y mod 400 =? 0))%Z.

Definition days_in_month (y m : Z) : Z :=
  if (m =? 2)%Z then (if is_leap y then 29 else 28)
  else if ((m =? 4) || (m =? 6) || (m =? 9) || (m =? 11))%Z then 30
  else 31.

Definition valid_date (d : datetime) : Prop :=
  1 ≤ year d ≤ 9999 ∧ 1 ≤ month d ≤ 12 ∧ 1 ≤ day d ≤ days_in_month (year d) (month d).

(** [a] is not later than [b]. *)
Definition date_le (a b : datetime) : Prop :=
  year a < year b ∨
  (year a = year b ∧ (month a < month b ∨ (month a = month b ∧ day a ≤ day b))).

Definition next_day (d : datetime) : datetime :=
  if (day d <? days_in_month (year d) (month d))%Z
  then Datetime (year d) (month d) (day d + 1)
  else if (month d <? 12)%Z then Datetime (year d) (month d + 1) 1
  else Datetime (year d + 1) 1 1.


(** ** Instances of the parameters, for the examples

    [iso_date] returns a text [YYYY-MM-DD] that is a calendar date
    unchanged, as [date()] does, and NULL otherwise, as [date()] does on a
    text that is no time value.  [iso_parse] reads the same texts, as
    [parse] does, and raises otherwise, as [parse] does on a text without a
    date.  The examples use no other value. *)

Definition parse_ymd (s : string) : option (Z * Z * Z) :=
  match s with
  | String y1 (String y2 (String y3 (String y4 (String "-"
      (String m1 (String m2 (String "-" (String d1 (String d2 EmptyString))))))))) =>
      a ← digit_of y1; b ← digit_of y2; c ← digit_of y3; d ← digit_of y4;
      e ← digit_of m1; f ← digit_of m2; g ← digit_of d1; h ← digit_of d2;
      Some (1000 * a + 100 * b + 10 * c + d, 10 * e + f, 10 * g + h)
  | _ => None
  end.

Definition iso_date (v : value) : option string :=
  match v with
  | VText s =>
      match parse_ymd s with
      | Some (y, m, d) =>
          if ((1 <=? m) && (m <=? 12) && (1 <=? d) && (d <=? days_in_month y m))%Z
          then Some s else None
      | None => None
      end
  | _ => None
  end.

Definition iso_parse (s : string) : option datetime :=
  match parse_ymd s with
  | Some (y, m, d) =>
      if ((1 <=? y) && (1 <=? m) && (m <=? 12) && (1 <=? d) && (d <=? days_in_month y m))%Z
      then Some (Datetime y m d) else None
  | None => None
  end.

(** [parse] reads more than one format; a date written month first,
    [MM/DD/YYYY], is one of them. *)
Definition parse_mdy (s : string) : option (Z * Z * Z) :=
  match s with
  | String m1 (String m2 (String "/" (String d1 (String d2 (String "/"
      (String y1 (String y2 (String y3 (String y4 EmptyString))))))))) =>
      a ← digit_of y1; b ← digit_of y2; c ← digit_of y3; d ← digit_of y4;
      e ← digit_of m1; f ← digit_of m2; g ← digit_of d1; h ← digit_of d2;
      Some (1000 * a + 100 * b + 10 * c + d, 10 * e + f, 10 * g + h)
  | _ => None
  end.

Definition slash_parse (s : string) : option datetime :=
  match iso_parse s with
  | Some d => Some d
  | None =>
      match parse_mdy s with
      | Some (y, m, d) =>
          if ((1 <=? y) && (1 <=? m) && (m <=? 12) && (1 <=? d) && (d <=? days_in_month y m))%Z
          then Some (Datetime y m d) else None
      | None => None
      end
  end.

(** [date('now')] is the day of the call: the store's function on the day
    [today]. *)
Definition date_on (today : string) (v : value) : option string :=
  if decide (v = VText "now") then Some today else iso_date v.

Definition sentences_columns : list string :=
  ["inmate_doc_number"; "inmate_sentence_component";
   "sentence_begin_date_(for_max)"; "actual_sentence_end_date"].

Definition notebook_conn : connection := Connection 0 "ncdoc.db".

Definition scenario_sentences : table :=
  Table sentences_columns
    [ [VInt 1; VInt 1; VText "2009-03-01"; VText "2005-06-01"];
      [VInt 1; VInt 1; VText "2010-01-01"; VText "2009-12-31"];
      [VInt 2; VInt 1; VText "2001-01-01"; VText "2003-01-01"] ].

Definition scenario_world : world :=
  World {[ ("ncdoc.db", "sentences") := scenario_sentences ]} ∅.

(** ** Worlds for the examples *)

(** A second connection on the database of the notebook, and a connection
    on another database. *)
Definition second_conn : connection := Connection 1 "ncdoc.db".
Definition other_conn : connection := Connection 2 "other.db".

Definition scenario_prep : list row :=
  [ [VInt 1; VInt 1; VText "2009-03-01"; VText "2005-06-01"];
    [VInt 1; VInt 1; VText "2010-01-01"; VText "2009-12-31"];
    [VInt 2; VInt 1; VText "2001-01-01"; VText "2003-01-01"] ].

Definition scenario_df : table :=
  Table ["inmate_doc_number"; "recidivism"] [[VInt 1; VInt 1]; [VInt 2; VInt 0]].

Definition scenario_call (conn : connection) (w : world) : world * outcome table :=
  create_labels iso_date iso_parse notebook_conn
    "2008-12-31" "2009-01-01" "2013-12-31" conn w.

Definition scenario_final : world := (scenario_call notebook_conn scenario_world).1.

(** Releases on the last day of the historical window, one day later and
    before 2000; admissions on the first and on the last day of the
    prediction window. *)
Definition boundary_sentences : table :=
  Table sentences_columns
    [ [VInt 3; VInt 1; VText "1995-01-01"; VText "2008-12-31"];
      [VInt 4; VInt 1; VText "1995-01-01"; VText "2009-01-01"];
      [VInt 5; VInt 1; VText "1990-01-01"; VText "1999-12-31"];
      [VInt 3; VInt 1; VText "2009-01-01"; VText "2010-01-01"];
      [VInt 6; VText "1"; VText "2013-12-31"; VText "2000-01-01"] ].

Definition boundary_prep : list row :=
  [ [VInt 3; VInt 1; VText "1995-01-01"; VText "2008-12-31"];
    [VInt 4; VInt 1; VText "1995-01-01"; VText "2009-01-01"];
    [VInt 5; VInt 1; VText "1990-01-01"; VText "1999-12-31"];
    [VInt 3; VInt 1; VText "2009-01-01"; VText "2010-01-01"];
    [VInt 6; VInt 1; VText "2013-12-31"; VText "2000-01-01"] ].

Definition boundary_world : world :=
  World {[ ("ncdoc.db", "sentences") := boundary_sentences ]} ∅.

Definition boundary_final : world := (scenario_call notebook_conn boundary_world).1.

Definition boundary_df : table :=
  Table ["inmate_doc_number"; "recidivism"] [[VInt 3; VInt 1]; [VInt 6; VInt 1]].

(** A source with date fields that are no dates. *)
Definition malformed_sentences : table :=
  Table sentences_columns
    [ [VInt 1; VInt 1; VText "13/45/2009"; VText "not a date"];
      [VInt 2; VInt 1; VText "2001-01-01"; VText "2003-01-01"] ].

Definition malformed_world : world :=
  World {[ ("ncdoc.db", "sentences") := malformed_sentences ]} ∅.

(** An individual with three releases in the historical window and one
    after it. *)
Definition repeat_prep : list row :=
  [ [VInt 7; VInt 1; VText "2001-01-01"; VText "2003-05-05"];
    [VInt 7; VInt 2; VText "2001-01-01"; VText "2006-07-08"];
    [VInt 2; VInt 1; VText "2001-01-01"; VText "2003-01-01"];
    [VInt 7; VInt 1; VText "2003-09-09"; VText "2004-02-02"];
    [VInt 7; VInt 1; VText "2009-06-01"; VText "2010-10-10"] ].

Definition repeat_world : world :=
  World {[ ("ncdoc.db", "sentences") := Table sentences_columns repeat_prep ]} ∅.

Definition repeat_df : table :=
  Table ["inmate_doc_number"; "recidivism"] [[VInt 2; VInt 0]; [VInt 7; VInt 1]].

(** A source with a date field that reads the clock. *)
Definition clock_sentences : table :=
  Table sentences_columns [ [VInt 1; VInt 1; VText "2009-03-01"; VText "now"] ].

Definition clock_world : world :=
  World {[ ("ncdoc.db", "sentences") := clock_sentences ]} ∅.

(** ** The cells of the notebook

    Before it defines [create_labels], the notebook builds the labels of
    2009-2013 cell by cell, each cell being a [drop] and a [create] passed
    to [cur.execute]; a statement that raises ends the run of the cells. *)

Definition release_dates_2000_2008 : list stmt :=
  [ DropTableIfExists "release_dates_2000_2008";
    CreateTableAs Temp "release_dates_2000_2008"
      (λ from, from "sentences_prep" ≫= select_release_dates "2008-12-31") ].

Definition last_exit_2000_2008 : list stmt :=
  [ DropTableIfExists "last_exit_2000_2008";
    CreateTableAs Temp "last_exit_2000_2008"
      (λ from, from "release_dates_2000_2008" ≫= select_last_exit) ].

Definition admit_2009_2013 : list stmt :=
  [ DropTableIfExists "admit_2009_2013";
    CreateTableAs Temp "admit_2009_2013"
      (λ from, from "sentences_prep" ≫= select_admit "2009-01-01" "2013-12-31") ].

Definition recidivism_2009_2013 : list stmt :=
  [ DropTableIfExists "recidivism_2009_2013";
    CreateTableAs Temp "recidivism_2009_2013"
      (λ from, r ← from "last_exit_2000_2008";
               a ← from "admit_2009_2013";
               select_recidivism r a) ].

Definition recidivism_labels_2009_2013 : list stmt :=
  [ DropTableIfExists "recidivism_labels_2009_2013";
    CreateTableAs Main "recidivism_labels_2009_2013"
      (λ from, from "recidivism_2009_2013" ≫= select_recidivism_labels) ].

(** [conn.close()]: the temporary tables of the connection go with it. *)
Definition close (conn : connection) (w : world) : world :=
  World (persistent w) (filter (λ kt, kt.1.1 ≠ conn) (temporary w)).

(** The name a statement drops or creates. *)
Definition stmt_name (s : stmt) : string :=
  match s with
  | DropTableIfExists n => n
  | CreateTableAs _ n _ => n
  end.

(** The rows of [sentences_prep] that pass one of the two [where] clauses. *)
Definition relevant (features_end prediction_start prediction_end : string) (r : row)
    : bool :=
  holds (between "2000-01-01" features_end (cell r 3)) ||
  holds (sql_and (between prediction_start prediction_end (cell r 2))
                 (sql_eq (cell r 1) (VInt 1))).

Section Notebook.
Variable date : value → option string.
Variable parse : string → option datetime.

(** The global connection [conn], whose cursor is [cur]. *)
Variable conn : connection.

Definition sentences_prep_cell : list stmt :=
  [ DropTableIfExists "sentences_prep";
    CreateTableAs Main "sentences_prep"
      (λ from, from "sentences" ≫= select_sentences_prep date) ].

(** The cells from [sentences_prep] to the read of the label table into
    [label_2009_2013]. *)
Definition label_2009_2013 (w : world) : world * outcome table :=
  match executescript conn
          (sentences_prep_cell ++ release_dates_2000_2008 ++ last_exit_2000_2008 ++
           admit_2009_2013 ++ recidivism_2009_2013 ++ recidivism_labels_2009_2013) w with
  | (w', Some e) => (w', Raise (OperationalError e))
  | (w', None) =>
      match read_sql "recidivism_labels_2009_2013" conn w' with
      | Ok df => (w', Return df)
      | Err e => (w', Raise (DatabaseError e))
      end
  end.

(** The notebook from the first cell that writes to the last: the cells of
    [label_2009_2013], the call that makes [label_2014_2018], and the two
    [close].  A cell that raises ends the run, the connection staying
    open. *)
Definition notebook (w : world) : world * outcome (table * table) :=
  match label_2009_2013 w with
  | (w1, Raise e) => (w1, Raise e)
  | (w1, Return label_2009_2013) =>
      match create_labels date parse conn "2013-12-31" "2014-01-01" "2018-12-31" conn w1 with
      | (w2, Raise e) => (w2, Raise e)
      | (w2, Return label_2014_2018) =>
          (close conn w2, Return (label_2009_2013, label_2014_2018))
      end
  end.

End Notebook.

(** Worlds for the examples: one that holds tables of earlier work, one
    without [sentences], one whose [sentences] lacks columns, one with
    NULL identifiers, one without the rows of [boundary_sentences] that
    pass no [where] clause, and one in which the second connection has a
    temporary table named as the label table. *)
Definition stale_world : world :=
  World {[ ("ncdoc.db", "sentences") := scenario_sentences;
           ("ncdoc.db", "sentences_prep") := sentences_prep [];
           ("ncdoc.db", "keep_me") := scenario_df;
           ("ncdoc.db", "recidivism_labels_2014_2018") := scenario_df ]} ∅.

Definition orphan_world : world :=
  World {[ ("ncdoc.db", "sentences_prep") := sentences_prep scenario_prep ]} ∅.

Definition narrow_sentences : table :=
  Table ["inmate_doc_number"; "inmate_sentence_component"] [[VInt 1; VInt 1]].

Definition narrow_world : world :=
  World {[ ("ncdoc.db", "sentences") := narrow_sentences ]} ∅.

Definition null_prep : list row :=
  [ [VNull; VInt 1; VText "2009-03-01"; VText "2005-06-01"];
    [VInt 2; VInt 1; VText "2001-01-01"; VText "2003-01-01"] ].

Definition null_world : world :=
  World {[ ("ncdoc.db", "sentences") := Table sentences_columns null_prep ]} ∅.

Definition null_df : table :=
  Table ["inmate_doc_number"; "recidivism"] [[VNull; VInt 0]; [VInt 2; VInt 0]].

Definition trimmed_sentences : table :=
  Table sentences_columns
    [ [VInt 3; VInt 1; VText "1995-01-01"; VText "2008-12-31"];
      [VInt 3; VInt 1; VText "2009-01-01"; VText "2010-01-01"];
      [VInt 6; VText "1"; VText "2013-12-31"; VText "2000-01-01"] ].

Definition trimmed_world : world :=
  World {[ ("ncdoc.db", "sentences") := trimmed_sentences ]} ∅.

Definition shadow_world : world :=
  World {[ ("ncdoc.db", "sentences") := scenario_sentences ]}
        {[ (second_conn, "recidivism_labels_2009_2013") := sentences_prep [] ]}.

(** The call of the notebook, on the boundary world, and a call with a
    wider prediction window. *)
Definition later_call (w : world) : world * outcome table :=
  create_labels iso_date iso_parse notebook_conn
    "2013-12-31" "2014-01-01" "2018-12-31" notebook_conn w.

Definition wider_call (w : world) : world * outcome table :=
  create_labels iso_date iso_parse notebook_conn
    "2008-12-31" "2009-01-01" "2018-12-31" notebook_conn w.

(** What the notebook's second call returns on the boundary world: the
    groups come in ascending order of the identifier. *)
Definition later_df : table :=
  Table ["inmate_doc_number"; "recidivism"]
    [[VInt 3; VInt 0]; [VInt 4; VInt 0]; [VInt 6; VInt 0]].

(** A connection that has just been opened has no temporary table. *)
Definition fresh (c : connection) (w : world) : Prop :=
  ∀ n, temporary w !! (c, n) = None.

(** The tables the notebook leaves, and the temporary tables it uses. *)
Definition notebook_tables : list string :=
  ["sentences_prep"; "recidivism_labels_2009_2013"; "recidivism_labels_2014_2018"].

Definition notebook_temporaries : list string :=
  [ "release_dates_2000_2008"; "last_exit_2000_2008"; "admit_2009_2013";
    "recidivism_2009_2013"; "release_dates_2000_2013"; "last_exit_2000_2013";
    "admit_2014_2018"; "recidivism_2014_2018" ].

(** * Properties *)

(** ** The order of texts *)

Lemma ascii_compare_refl a : Ascii.compare a a = Eq.
Proof. apply N.compare_refl. Qed.

Lemma string_compare_refl s : String.compare s s = Eq.
Proof. induction s as [|a s IH]; simpl; [done|]. by rewrite ascii_compare_refl. Qed.

Lemma string_compare_lt_trans a b c :
  String.compare a b = Lt → String.compare b c = Lt → String.compare a c = Lt.
Proof.
  revert b c. induction a as [|x a IH]; intros [|y b] [|z c]; simpl; try done.
  unfold Ascii.compare.
  destruct (N.compare_spec (N_of_ascii x) (N_of_ascii y)) as [Hxy|Hxy|Hxy];
    destruct (N.compare_spec (N_of_ascii y) (N_of_ascii z)) as [Hyz|Hyz|Hyz];
    try done; intros H1 H2.
  - rewrite Hxy, Hyz, N.compare_refl. eauto.
  - rewrite Hxy. by apply N.compare_lt_iff in Hyz as ->.
  - rewrite <- Hyz. by apply N.compare_lt_iff in Hxy as ->.
  - assert (N_of_ascii x < N_of_ascii z)%N as Hxz by lia.
    by apply N.compare_lt_iff in Hxz as ->.
Qed.

Lemma string_leb_refl s : String.leb s s = true.
Proof. unfold String.leb. by rewrite string_compare_refl. Qed.

Lemma string_leb_trans a b c :
  String.leb a b = true → String.leb b c = true → String.leb a c = true.
Proof.
  unfold String.leb.
  destruct (String.compare a b) eqn:Hab; try done;
    destruct (String.compare b c) eqn:Hbc; try done; intros _ _.
  - apply String.compare_eq_iff in Hab as ->. by rewrite Hbc.
  - apply String.compare_eq_iff in Hab as ->. by rewrite Hbc.
  - apply String.compare_eq_iff in Hbc as <-. by rewrite Hab.
  - by rewrite (string_compare_lt_trans _ _ _ Hab Hbc).
Qed.

Lemma string_ltb_not_leb a b : String.ltb a b = true → String.leb b a = false.
Proof.
  unfold String.ltb, String.leb. rewrite (String.compare_antisym a b).
  by destruct (String.compare b a).
Qed.

(** ** The store: dropping and recreating a table *)

Section Store.
Implicit Types (c : connection) (w : world) (n m : string) (t : table).

Lemma temporary_rebuild_ne s c n t w k :
  k ≠ (c, n) → temporary (rebuild s c n t w) !! k = temporary w !! k.
Proof.
  intros Hk. unfold rebuild, drop_table_if_exists.
  destruct s, (temporary w !! (c, n)); simpl;
    rewrite ?lookup_insert_ne, ?lookup_delete_ne by done; done.
Qed.

Lemma persistent_rebuild_ne s c n t w k :
  k ≠ (conn_db c, n) → persistent (rebuild s c n t w) !! k = persistent w !! k.
Proof.
  intros Hk. unfold rebuild, drop_table_if_exists.
  destruct s, (temporary w !! (c, n)); simpl;
    rewrite ?lookup_insert_ne, ?lookup_delete_ne by done; done.
Qed.

Lemma temporary_rebuild_Temp c n t w :
  temporary (rebuild Temp c n t w) !! (c, n) = Some t.
Proof.
  unfold rebuild, drop_table_if_exists.
  destruct (temporary w !! (c, n)); simpl; by rewrite lookup_insert_eq.
Qed.

Lemma temporary_rebuild_Main c n t w :
  temporary (rebuild Main c n t w) !! (c, n) = None.
Proof.
  unfold rebuild, drop_table_if_exists.
  destruct (temporary w !! (c, n)) eqn:E; simpl; [|done].
  by rewrite lookup_delete_eq.
Qed.

Lemma persistent_rebuild_Main c n t w :
  persistent (rebuild Main c n t w) !! (conn_db c, n) = Some t.
Proof.
  unfold rebuild, drop_table_if_exists.
  destruct (temporary w !! (c, n)); simpl; by rewrite lookup_insert_eq.
Qed.

Lemma rebuild_Temp_id c n t w :
  temporary w !! (c, n) = Some t → rebuild Temp c n t w = w.
Proof.
  intros H. unfold rebuild, drop_table_if_exists. rewrite H. destruct w as [p q].
  simpl in *. f_equal. rewrite insert_delete_eq. by apply insert_id.
Qed.

Lemma rebuild_Main_id c n t w :
  temporary w !! (c, n) = None →
  persistent w !! (conn_db c, n) = Some t →
  rebuild Main c n t w = w.
Proof.
  intros H1 H2. unfold rebuild, drop_table_if_exists. rewrite H1. destruct w as [p q].
  simpl in *. f_equal. rewrite insert_delete_eq. by apply insert_id.
Qed.

Lemma has_table_Temp_drop c n w :
  has_table Temp c n (drop_table_if_exists c n w) = false.
Proof.
  unfold drop_table_if_exists.
  destruct (temporary w !! (c, n)) eqn:E; simpl.
  - by rewrite lookup_delete_eq.
  - by rewrite E.
Qed.

Lemma has_table_Main_drop c n w :
  has_table Main c n (drop_table_if_exists c n w) = bool_decide (clash c n w).
Proof.
  unfold drop_table_if_exists, clash.
  destruct (temporary w !! (c, n)) eqn:E; simpl.
  - apply bool_decide_ext. split; [intros ?; split; eauto | by intros [_ ?]].
  - by rewrite lookup_delete_eq.
Qed.

Lemma find_table_drop_ne c n m w :
  n ≠ m → find_table c (drop_table_if_exists c n w) m = find_table c w m.
Proof.
  intros Hn. unfold find_table, drop_table_if_exists.
  destruct (temporary w !! (c, n)); simpl;
    rewrite ?lookup_delete_ne by congruence; done.
Qed.

Lemma executescript_rebuild c s n q script w :
  executescript c (DropTableIfExists n :: CreateTableAs s n q :: script) w =
    let w0 := drop_table_if_exists c n w in
    if has_table s c n w0 then (w0, Some (table_already_exists n))
    else match q (from c w0) with
         | Ok t => executescript c script (rebuild s c n t w)
         | Err e => (w0, Some e)
         end.
Proof.
  simpl. destruct (has_table s c n _); [done|].
  by destruct (q _).
Qed.

End Store.

Lemma find_table_rebuild_ne s c n m t w :
  n ≠ m → find_table c (rebuild s c n t w) m = find_table c w m.
Proof.
  intros Hn. unfold find_table.
  rewrite temporary_rebuild_ne, persistent_rebuild_ne by congruence. done.
Qed.

Lemma find_table_rebuild_Temp c n t w : find_table c (rebuild Temp c n t w) n = Some t.
Proof. unfold find_table. by rewrite temporary_rebuild_Temp. Qed.

Lemma find_table_rebuild_Main c n t w : find_table c (rebuild Main c n t w) n = Some t.
Proof.
  unfold find_table. by rewrite temporary_rebuild_Main, persistent_rebuild_Main.
Qed.

Lemma clash_rebuild_ne s c n m t w :
  n ≠ m → clash c m (rebuild s c n t w) ↔ clash c m w.
Proof.
  intros Hn. unfold clash.
  rewrite temporary_rebuild_ne, persistent_rebuild_ne by congruence. done.
Qed.

(** ** The names of the tables are pairwise distinct *)

Lemma format_int_not_l y r r' : format_int y +:+ String "_" r ≠ String "l" r'.
Proof.
  unfold format_int, NilEmpty.string_of_int.
  destruct (Z.to_int y) as [d|d]; [|done]. by destruct d.
Qed.

Ltac name_ne :=
  let H := fresh in
  intros H;
  repeat match type of H with (?a, ?b) = (?c, ?d) => injection H as _ H end;
  unfold release_dates_name, last_exit_name, admit_name, recidivism_name,
    recidivism_labels_name in H;
  simpl in H;
  first [ discriminate H
        | injection H as H; exact (format_int_not_l _ _ _ H)
        | injection H as H; symmetry in H; exact (format_int_not_l _ _ _ H) ].


(** ** Running the script *)

Section Run.
Variable date : value → option string.
Variable parse : string → option datetime.
Variable cur : connection.

Lemma select_sentences_prep_Ok S T :
  select_sentences_prep date S = Ok T →
  ∃ i c b e,
    column S "inmate_doc_number" = Ok i ∧
    column S "inmate_sentence_component" = Ok c ∧
    column S "sentence_begin_date_(for_max)" = Ok b ∧
    column S "actual_sentence_end_date" = Ok e ∧
    T = sentences_prep (sentences_prep_rows date i c b e (rows S)).
Proof.
  unfold select_sentences_prep.
  destruct (column S "inmate_doc_number") as [i|]; [|done].
  destruct (column S "inmate_sentence_component") as [c|]; [|done].
  destruct (column S "sentence_begin_date_(for_max)") as [b|]; [|done].
  destruct (column S "actual_sentence_end_date") as [e|]; [|done].
  simpl. intros [= <-]. by exists i, c, b, e.
Qed.

Ltac lookup_tables :=
  unfold from;
  rewrite ?find_table_drop_ne by name_ne;
  rewrite ?find_table_rebuild_ne by name_ne;
  rewrite ?find_table_rebuild_Temp, ?find_table_rebuild_Main.

(** The script on a store where [sentences] is visible and has the four
    source columns: it fails only on a name taken twice. *)
Lemma executescript_sql_script fe ps pe x s e w S P :
  find_table cur w "sentences" = Some S →
  select_sentences_prep date S = Ok (sentences_prep P) →
  executescript cur (sql_script date fe ps pe x s e) w =
    if bool_decide (clash cur "sentences_prep" w)
    then (drop_table_if_exists cur "sentences_prep" w,
          Some (table_already_exists "sentences_prep"))
    else if bool_decide (clash cur (recidivism_labels_name s e) w)
    then (drop_table_if_exists cur (recidivism_labels_name s e)
            (rebuild Temp cur (recidivism_name s e) (recidivism fe ps pe P)
            (rebuild Temp cur (admit_name s e) (admit_table ps pe P)
            (rebuild Temp cur (last_exit_name x) (last_exit fe P)
            (rebuild Temp cur (release_dates_name x) (release_dates fe P)
            (rebuild Main cur "sentences_prep" (sentences_prep P) w))))),
          Some (table_already_exists (recidivism_labels_name s e)))
    else (final_world cur fe ps pe x s e P w, None).
Proof.
  intros HS HP. unfold sql_script, final_world.
  rewrite executescript_rebuild. cbv zeta. rewrite has_table_Main_drop.
  case_bool_decide as Hc1; [done|].
  lookup_tables. rewrite HS. cbn [mbind result_bind]. rewrite HP.
  rewrite executescript_rebuild. cbv zeta. rewrite has_table_Temp_drop.
  lookup_tables. cbn [mbind result_bind].
  change (select_release_dates fe (sentences_prep P)) with (Ok (release_dates fe P)).
  cbv beta iota.
  rewrite executescript_rebuild. cbv zeta. rewrite has_table_Temp_drop.
  lookup_tables. cbn [mbind result_bind].
  change (select_last_exit (release_dates fe P)) with (Ok (last_exit fe P)).
  cbv beta iota.
  rewrite executescript_rebuild. cbv zeta. rewrite has_table_Temp_drop.
  lookup_tables. cbn [mbind result_bind].
  change (select_admit ps pe (sentences_prep P)) with (Ok (admit_table ps pe P)).
  cbv beta iota.
  rewrite executescript_rebuild. cbv zeta. rewrite has_table_Temp_drop.
  lookup_tables. cbn [mbind result_bind]. lookup_tables. cbn [mbind result_bind].
  change (select_recidivism (last_exit fe P) (admit_table ps pe P))
    with (Ok (recidivism fe ps pe P)).
  cbv beta iota.
  rewrite executescript_rebuild. cbv zeta. rewrite has_table_Main_drop.
  rewrite (bool_decide_ext (clash cur (recidivism_labels_name s e) _)
             (clash cur (recidivism_labels_name s e) w)).
  2:{ rewrite !clash_rebuild_ne by name_ne. done. }
  case_bool_decide as Hc2; [done|].
  lookup_tables. cbn [mbind result_bind].
  change (select_recidivism_labels (recidivism fe ps pe P))
    with (Ok (recidivism_labels fe ps pe P)).
  done.
Qed.

End Run.

(** ** Casts, comparisons and the [max] aggregate *)

Example cast_integer_padded : cast_integer (VText "001") = VInt 1.
Proof. reflexivity. Qed.

Example cast_integer_prefix : cast_integer (VText " 12abc") = VInt 12.
Proof. reflexivity. Qed.

Example cast_integer_no_digits : cast_integer (VText "- 5") = VInt 0.
Proof. reflexivity. Qed.

Example cast_integer_saturates :
  cast_integer (VText "-99999999999999999999") = VInt (-9223372036854775808).
Proof. reflexivity. Qed.

Example text_order_not_calendar :
  holds (between "2000-01-01" "12/31/2008" (VText "2005-06-01")) = false.
Proof. reflexivity. Qed.

Lemma compare_values_eq a b :
  a ≠ VNull → b ≠ VNull → compare_values a b = Eq ↔ a = b.
Proof.
  intros Ha Hb. destruct a, b; simpl; try done.
  - rewrite Z.compare_eq_iff. naive_solver.
  - split; [intros ->%String.compare_eq_iff; done | intros [= ->]].
    apply string_compare_refl.
  - split; [intros ->%String.compare_eq_iff; done | intros [= ->]].
    apply string_compare_refl.
Qed.

Lemma holds_sql_eq a b : holds (sql_eq a b) = true ↔ a ≠ VNull ∧ a = b.
Proof.
  destruct (decide (a = VNull)) as [->|Ha]; [by split; [|intros [? _]]|].
  destruct (decide (b = VNull)) as [->|Hb].
  { destruct a; simpl; split; try done; by intros [_ ?]. }
  pose proof (compare_values_eq a b Ha Hb) as Heq.
  unfold sql_eq, sql_cmp. destruct a, b; try done; simpl in *.
  all: split; [intros H | intros [_ H]]; try done.
  all: try (apply Heq in H; by rewrite H).
  all: split; [done|]; apply Heq.
  - by destruct (n ?= n0)%Z.
  - by destruct (String.compare s s0).
  - by destruct (String.compare s s0).
Qed.

Lemma in_window_text lo hi s :
  in_window lo hi (VText s) ↔ String.leb lo s = true ∧ String.leb s hi = true.
Proof.
  unfold in_window. split; [by intros (? & [= <-] & ?) | intros ?; by exists s].
Qed.

Lemma holds_between lo hi d : holds (between lo hi d) = true ↔ in_window lo hi d.
Proof.
  destruct d as [|n|s|s]; try (split; [done | by intros (? & ? & _)]).
  rewrite in_window_text. unfold between, sql_ge, sql_le, String.leb. simpl.
  rewrite (String.compare_antisym lo s).
  destruct (String.compare s lo), (String.compare s hi); simpl; intuition congruence.
Qed.

Lemma sql_le_text a b : sql_le (VText a) (VText b) = Some (String.leb a b).
Proof. done. Qed.

(** On a non-empty group of texts, [max] returns a member of the group
    that every member is below. *)
Lemma sql_max_texts (vs : list value) :
  vs ≠ [] → Forall (λ v, ∃ s, v = VText s) vs →
  ∃ m, sql_max vs = VText m ∧ VText m ∈ vs ∧
       ∀ s, VText s ∈ vs → String.leb s m = true.
Proof.
  induction vs as [|v vs IH]; [done|]. intros _ Hall.
  apply Forall_cons in Hall as [[s ->] Hall].
  destruct vs as [|v' vs'].
  - exists s. simpl. split; [done|]. split; [by left|].
    intros s' [= ->]%list_elem_of_singleton. apply string_leb_refl.
  - destruct IH as (m & Hm & Hin & Hub); [done..|].
    change (sql_max (VText s :: v' :: vs')) with (max_value (VText s) (sql_max (v' :: vs'))).
    rewrite Hm. unfold max_value. simpl.
    destruct (String.compare s m) eqn:Hc.
    + exists s. split; [done|]. split; [by left|].
      intros s' [[= ->]|Hs']%elem_of_cons; [apply string_leb_refl|].
      apply String.compare_eq_iff in Hc as ->. by apply Hub.
    + exists m. split; [done|]. split; [by right|].
      intros s' [[= ->]|Hs']%elem_of_cons; [|by apply Hub].
      unfold String.leb. by rewrite Hc.
    + exists s. split; [done|]. split; [by left|].
      intros s' [[= ->]|Hs']%elem_of_cons; [apply string_leb_refl|].
      apply (string_leb_trans _ m); [by apply Hub|].
      unfold String.leb. rewrite String.compare_antisym, Hc. done.
Qed.

Lemma filter_eq_not_elem_of {A} `{EqDecision A} (l : list A) (x : A) :
  x ∉ l → filter (λ y, y = x) l = [].
Proof.
  induction l as [|y l IH]; [done|]. intros [Hy Hl]%not_elem_of_cons.
  rewrite filter_cons_False by congruence. by apply IH.
Qed.

Lemma filter_eq_NoDup {A} `{EqDecision A} (l : list A) (x : A) :
  NoDup l → x ∈ l → filter (λ y, y = x) l = [x].
Proof.
  induction 1 as [|y l Hy Hnd IH]; [by intros ?%elem_of_nil|].
  intros [->|Hx]%elem_of_cons.
  - rewrite filter_cons_True by done. f_equal. by apply filter_eq_not_elem_of.
  - rewrite filter_cons_False; [by apply IH|]. intros ->. done.
Qed.

Section Distinct.
Context {A : Type} `{EqDecision A}.
Implicit Types (l seen : list A).

Lemma elem_of_distinct_from seen l x :
  x ∈ distinct_from seen l ↔ x ∈ l ∧ x ∉ seen.
Proof.
  revert seen. induction l as [|y l IH]; intros seen; simpl.
  - rewrite elem_of_nil. set_solver.
  - destruct (decide (y ∈ seen)) as [Hy|Hy].
    + rewrite IH, elem_of_cons. naive_solver.
    + rewrite elem_of_cons, IH, !elem_of_cons.
      destruct (decide (x = y)); naive_solver.
Qed.

Lemma NoDup_distinct_from seen l : NoDup (distinct_from seen l).
Proof.
  revert seen. induction l as [|y l IH]; intros seen; simpl; [constructor|].
  destruct (decide (y ∈ seen)); [done|].
  constructor; [|done]. rewrite elem_of_distinct_from, elem_of_cons. naive_solver.
Qed.

Lemma elem_of_distinct l x : x ∈ distinct l ↔ x ∈ l.
Proof. unfold distinct. rewrite elem_of_distinct_from, elem_of_nil. naive_solver. Qed.

Lemma NoDup_distinct l : NoDup (distinct l).
Proof. apply NoDup_distinct_from. Qed.

End Distinct.

Lemma elem_of_group_keys i (t : list row) k :
  k ∈ group_keys i t ↔ k ∈ (λ r, cell r i) <$> t.
Proof. unfold group_keys. by rewrite merge_sort_Permutation, elem_of_distinct. Qed.

Lemma NoDup_group_keys i (t : list row) : NoDup (group_keys i t).
Proof. unfold group_keys. rewrite merge_sort_Permutation. apply NoDup_distinct. Qed.

(** ** The contents of the derived tables *)

Section Pipeline.
Implicit Types (P : list row) (k : value) (fe ps pe : string).

Lemma elem_of_release_dates fe P r' :
  r' ∈ rows (release_dates fe P) ↔
  ∃ r, r ∈ P ∧ in_window "2000-01-01" fe (cell r 3) ∧ r' = [cell r 0; cell r 3].
Proof.
  unfold release_dates, release_dates_rows. simpl. rewrite list_elem_of_fmap.
  split.
  - intros (r & -> & [Hw Hr]%list_elem_of_filter). exists r.
    apply Is_true_true, holds_between in Hw. done.
  - intros (r & Hr & Hw & ->). exists r. split; [done|].
    apply list_elem_of_filter. split; [|done]. by apply Is_true_true, holds_between.
Qed.

Lemma elem_of_admit ps pe P a :
  a ∈ rows (admit_table ps pe P) ↔
  ∃ r, r ∈ P ∧ in_window ps pe (cell r 2) ∧ cell r 1 = VInt 1 ∧
       a = [cell r 0; cell r 1; cell r 2].
Proof.
  assert (∀ r, holds (sql_and (between ps pe (cell r 2)) (sql_eq (cell r 1) (VInt 1))) = true
               ↔ in_window ps pe (cell r 2) ∧ cell r 1 = VInt 1) as Hcond.
  { intros r. rewrite <- holds_between.
    pose proof (holds_sql_eq (cell r 1) (VInt 1)) as Heq.
    destruct (between ps pe (cell r 2)) as [[]|], (sql_eq (cell r 1) (VInt 1)) as [[]|];
      simpl in *; intuition congruence. }
  unfold admit_table, admit_rows. simpl. rewrite list_elem_of_fmap. split.
  - intros (r & -> & [Hw Hr]%list_elem_of_filter). exists r.
    apply Is_true_true, Hcond in Hw. naive_solver.
  - intros (r & Hr & Hw & Hc & ->). exists r. split; [done|].
    apply list_elem_of_filter. split; [|done]. apply Is_true_true, Hcond. done.
Qed.

Lemma released_iff fe P k :
  released fe P k ↔ k ∈ (λ r, cell r 0) <$> rows (release_dates fe P).
Proof.
  rewrite list_elem_of_fmap. unfold released. split.
  - intros (r & Hr & <- & Hw). exists [cell r 0; cell r 3]. split; [done|].
    apply elem_of_release_dates. eauto.
  - intros (r' & -> & (r & Hr & Hw & ->)%elem_of_release_dates). eauto.
Qed.

Lemma rows_last_exit fe P :
  rows (last_exit fe P) =
  (λ k, [k; sql_max (release_ends fe P k)]) <$>
  group_keys 0 (rows (release_dates fe P)).
Proof. done. Qed.

Lemma elem_of_last_exit fe P r :
  r ∈ rows (last_exit fe P) ↔
  ∃ k, released fe P k ∧ r = [k; sql_max (release_ends fe P k)].
Proof.
  rewrite rows_last_exit, list_elem_of_fmap.
  setoid_rewrite elem_of_group_keys. setoid_rewrite released_iff. naive_solver.
Qed.

Lemma ids_last_exit fe P :
  (λ r, cell r 0) <$> rows (last_exit fe P) =
  group_keys 0 (rows (release_dates fe P)).
Proof.
  rewrite rows_last_exit, <- list_fmap_compose.
  induction (group_keys _ _) as [|k l IH]; [done|].
  rewrite fmap_cons, IH. done.
Qed.

Lemma ids_last_exit_NoDup fe P : NoDup ((λ r, cell r 0) <$> rows (last_exit fe P)).
Proof. rewrite ids_last_exit. apply NoDup_group_keys. Qed.

Lemma elem_of_left_join_row (A : list row) k m (l : row) :
  l ∈ left_join_row 0 1 0 2 A [k; m] ↔
  (∃ a, a ∈ A ∧ k ≠ VNull ∧ k = cell a 0 ∧
        l = [k; m; cell a 2; recidivism_flag (cell a 2)]) ∨
  ((∀ a, a ∈ A → ¬ (k ≠ VNull ∧ k = cell a 0)) ∧ l = [k; m; VNull; VInt 0]).
Proof.
  unfold left_join_row.
  change (cell [k; m] 0) with k. change (cell [k; m] 1) with m.
  assert (∀ a, a ∈ filter (λ a, holds (sql_eq k (cell a 0))) A ↔
               a ∈ A ∧ k ≠ VNull ∧ k = cell a 0) as Hf.
  { intros a. rewrite list_elem_of_filter, Is_true_true, holds_sql_eq. tauto. }
  destruct (filter _ A) as [|a0 M] eqn:HM.
  - rewrite list_elem_of_singleton. split.
    + intros ->. right. split; [|done]. intros a Ha Hk.
      apply (elem_of_nil a), Hf. tauto.
    + intros [(a & Ha & Hk & Hk' & _)|[_ ->]]; [|done].
      exfalso. apply (elem_of_nil a), Hf. tauto.
  - rewrite list_elem_of_fmap. split.
    + intros (a & -> & Ha%Hf). left. exists a. intuition.
    + intros [(a & Ha & Hk & Hk' & ->)|[Hno _]].
      * exists a. split; [done|]. apply Hf. tauto.
      * exfalso. assert (a0 ∈ a0 :: M) as Ha0%Hf by left.
        apply (Hno a0); tauto.
Qed.

Lemma readmitted_iff ps pe P k :
  readmitted ps pe P k ↔ ∃ a, a ∈ rows (admit_table ps pe P) ∧ k = cell a 0.
Proof.
  unfold readmitted. split.
  - intros (r & Hr & <- & Hc & Hw). exists [cell r 0; cell r 1; cell r 2].
    split; [|done]. apply elem_of_admit. exists r. intuition.
  - intros (a & (r & Hr & Hw & Hc & ->)%elem_of_admit & ->). exists r. intuition.
Qed.

Lemma admit_flag ps pe P a :
  a ∈ rows (admit_table ps pe P) → recidivism_flag (cell a 2) = VInt 1.
Proof.
  intros (r & _ & (s & Hs & _) & _ & ->)%elem_of_admit.
  change (cell [cell r 0; cell r 1; cell r 2] 2) with (cell r 2). by rewrite Hs.
Qed.

(** The label table: one row per released individual, flagged 1 exactly
    when the identifier is not NULL and the individual was readmitted. *)
Lemma elem_of_recidivism_labels fe ps pe P (r : row) :
  r ∈ rows (recidivism_labels fe ps pe P) ↔
  ∃ k, released fe P k ∧
       ((k ≠ VNull ∧ readmitted ps pe P k ∧ r = [k; VInt 1]) ∨
        (¬ (k ≠ VNull ∧ readmitted ps pe P k) ∧ r = [k; VInt 0])).
Proof.
  unfold recidivism_labels, recidivism_labels_rows, recidivism, recidivism_rows.
  cbn [rows]. rewrite elem_of_distinct, list_elem_of_fmap. split.
  - intros (j & -> & (le & Hj & (k & Hk & ->)%elem_of_last_exit)%list_elem_of_bind).
    exists k. split; [done|].
    apply elem_of_left_join_row in Hj as [(a & Ha & Hn & Hka & ->)|[Hno ->]].
    + left. split; [done|]. split; [apply readmitted_iff; eauto|].
      by rewrite (admit_flag _ _ _ _ Ha).
    + right. split; [|done]. intros [Hn (a & Ha & Hka)%readmitted_iff].
      by apply (Hno a).
  - intros (k & Hk & Hcase).
    assert ([k; sql_max (release_ends fe P k)] ∈ rows (last_exit fe P)) as Hle
      by (apply elem_of_last_exit; eauto).
    destruct Hcase as [(Hn & (a & Ha & Hka)%readmitted_iff & ->)|[Hno ->]].
    + exists [k; sql_max (release_ends fe P k); cell a 2; recidivism_flag (cell a 2)].
      split; [by rewrite (admit_flag _ _ _ _ Ha)|].
      apply list_elem_of_bind. eexists. split; [|exact Hle].
      apply elem_of_left_join_row. left. exists a. intuition.
    + exists [k; sql_max (release_ends fe P k); VNull; VInt 0]. split; [done|].
      apply list_elem_of_bind. eexists. split; [|exact Hle].
      apply elem_of_left_join_row. right. split; [|done].
      intros a Ha [Hn Hka]. apply Hno. split; [done|]. apply readmitted_iff. eauto.
Qed.

(** A NULL identifier never joins: its group is labelled 0. *)
Lemma null_identifier_label fe ps pe P :
  released fe P VNull → [VNull; VInt 0] ∈ rows (recidivism_labels fe ps pe P).
Proof.
  intros H. apply elem_of_recidivism_labels. exists VNull. split; [done|].
  right. split; [|done]. by intros [? _].
Qed.

End Pipeline.

(** ** When [create_labels] returns *)

Section CreateLabels.
Variable date : value → option string.
Variable parse : string → option datetime.
Variable cur : connection.

Lemma executescript_sql_script_Err fe ps pe x s e w :
  (∀ P, ¬ prepared date cur w P) →
  ∃ w' err, executescript cur (sql_script date fe ps pe x s e) w = (w', Some err).
Proof.
  intros Hno. unfold sql_script. rewrite executescript_rebuild. cbv zeta.
  destruct (has_table Main cur "sentences_prep" _); [eauto|].
  unfold from at 1. rewrite find_table_drop_ne by name_ne.
  destruct (find_table cur w "sentences") as [S|] eqn:HS; [|simpl; eauto].
  cbn [mbind result_bind].
  destruct (select_sentences_prep date S) as [T|err] eqn:HT; [|eauto].
  destruct (select_sentences_prep_Ok _ _ _ HT) as (i & c & b & e' & _ & _ & _ & _ & ->).
  destruct (Hno (sentences_prep_rows date i c b e' (rows S))). by exists S.
Qed.

Lemma prepared_inj w P1 P2 : prepared date cur w P1 → prepared date cur w P2 → P1 = P2.
Proof.
  intros (S1 & H1 & H1') (S2 & H2 & H2'). unfold sentences_prep in *. congruence.
Qed.

Lemma prepared_dec w : (∃ P, prepared date cur w P) ∨ (∀ P, ¬ prepared date cur w P).
Proof.
  unfold prepared.
  destruct (find_table cur w "sentences") as [S|] eqn:HS; [|right; by intros ? (? & ? & _)].
  destruct (select_sentences_prep date S) as [T|err] eqn:HT.
  - destruct (select_sentences_prep_Ok _ _ _ HT) as (i & c & b & e' & _ & _ & _ & _ & ->).
    left. eauto.
  - right. intros P (S' & [= <-] & HT'). congruence.
Qed.

(** [create_labels] returns a table exactly when the three arguments
    parse, [sentences] is visible with its four columns, and neither
    [sentences_prep] nor the label table is taken twice; the world is then
    the one of a complete run, and the table is what [conn] reads. *)
Lemma create_labels_Return fe ps pe conn w w' df :
  create_labels date parse cur fe ps pe conn w = (w', Return df) ↔
  ∃ px py pz P,
    parse fe = Some px ∧ parse ps = Some py ∧ parse pe = Some pz ∧
    prepared date cur w P ∧
    ¬ clash cur "sentences_prep" w ∧
    ¬ clash cur (recidivism_labels_name (year py) (year pz)) w ∧
    w' = final_world cur fe ps pe (year px) (year py) (year pz) P w ∧
    read_sql (recidivism_labels_name (year py) (year pz)) conn w' = Ok df.
Proof.
  unfold create_labels. split.
  - destruct (parse fe) as [px|]; [|done].
    destruct (parse ps) as [py|]; [|done].
    destruct (parse pe) as [pz|]; [|done].
    destruct (executescript _ _ _) as [w1 [err|]] eqn:Hrun; [done|].
    destruct (read_sql _ conn w1) as [df1|] eqn:Hread; [|done].
    intros [= <- <-]. exists px, py, pz.
    destruct (prepared_dec w) as [[P HP]|Hno].
    2:{ destruct (executescript_sql_script_Err fe ps pe (year px) (year py) (year pz) w Hno)
          as (? & ? & Herr). congruence. }
    exists P. destruct HP as (S & HS & HT).
    rewrite (executescript_sql_script _ _ _ _ _ _ _ _ _ S P HS HT) in Hrun.
    case_bool_decide; [done|]. case_bool_decide; [done|].
    injection Hrun as <-. repeat split; try done. by exists S.
  - intros (px & py & pz & P & -> & -> & -> & (S & HS & HT) & Hc1 & Hc2 & -> & Hread).
    rewrite (executescript_sql_script _ _ _ _ _ _ _ _ _ S P HS HT).
    rewrite !bool_decide_eq_false_2 by done. by rewrite Hread.
Qed.

End CreateLabels.

(** ** The world after a complete run *)

Section FinalWorld.
Variable cur : connection.
Variables (fe ps pe : string) (x s e : Z) (P : list row) (w : world).

Local Notation "'w1'" := (final_world cur fe ps pe x s e P w).

Ltac through_rebuilds :=
  unfold final_world;
  rewrite ?temporary_rebuild_ne by name_ne;
  rewrite ?persistent_rebuild_ne by name_ne.

Lemma final_world_sentences_prep :
  temporary w1 !! (cur, "sentences_prep") = None ∧
  persistent w1 !! (conn_db cur, "sentences_prep") = Some (sentences_prep P).
Proof.
  split; through_rebuilds; [apply temporary_rebuild_Main | apply persistent_rebuild_Main].
Qed.

Lemma final_world_release_dates :
  temporary w1 !! (cur, release_dates_name x) = Some (release_dates fe P).
Proof. through_rebuilds. apply temporary_rebuild_Temp. Qed.

Lemma final_world_last_exit :
  temporary w1 !! (cur, last_exit_name x) = Some (last_exit fe P).
Proof. through_rebuilds. apply temporary_rebuild_Temp. Qed.

Lemma final_world_admit :
  temporary w1 !! (cur, admit_name s e) = Some (admit_table ps pe P).
Proof. through_rebuilds. apply temporary_rebuild_Temp. Qed.

Lemma final_world_recidivism :
  temporary w1 !! (cur, recidivism_name s e) = Some (recidivism fe ps pe P).
Proof. through_rebuilds. apply temporary_rebuild_Temp. Qed.

Lemma final_world_recidivism_labels :
  temporary w1 !! (cur, recidivism_labels_name s e) = None ∧
  persistent w1 !! (conn_db cur, recidivism_labels_name s e)
    = Some (recidivism_labels fe ps pe P).
Proof.
  split; through_rebuilds; [apply temporary_rebuild_Main | apply persistent_rebuild_Main].
Qed.

(** Frame: only the six names of the script change, and only for the
    connection of the cursor and its database. *)
Lemma final_world_temporary_frame c n :
  c ≠ cur ∨ n ∉ script_names x s e → temporary w1 !! (c, n) = temporary w !! (c, n).
Proof.
  intros H. unfold final_world.
  rewrite !temporary_rebuild_ne; [done|..];
    intros [= -> ->]; destruct H as [H|H]; try done;
    apply H; unfold script_names; set_solver.
Qed.

Lemma final_world_persistent_frame db n :
  db ≠ conn_db cur ∨ n ∉ script_names x s e →
  persistent w1 !! (db, n) = persistent w !! (db, n).
Proof.
  intros H. unfold final_world.
  rewrite !persistent_rebuild_ne; [done|..];
    intros [= -> ->]; destruct H as [H|H]; try done;
    apply H; unfold script_names; set_solver.
Qed.

Lemma final_world_sentences : find_table cur w1 "sentences" = find_table cur w "sentences".
Proof.
  unfold find_table.
  rewrite final_world_temporary_frame, final_world_persistent_frame; [done|..];
    right; unfold script_names; rewrite !not_elem_of_cons; repeat split;
    try apply not_elem_of_nil; name_ne.
Qed.

Lemma final_world_clash n : n ∈ ["sentences_prep"; recidivism_labels_name s e] → ¬ clash cur n w1.
Proof.
  intros [->|[->|[]%elem_of_nil]%elem_of_cons]%elem_of_cons; intros [[t Ht] _].
  - by rewrite (proj1 final_world_sentences_prep) in Ht.
  - by rewrite (proj1 final_world_recidivism_labels) in Ht.
Qed.

(** Running the script again on the world it left changes nothing. *)
Lemma final_world_idem : final_world cur fe ps pe x s e P w1 = w1.
Proof.
  unfold final_world at 1.
  rewrite (rebuild_Main_id cur "sentences_prep") by apply final_world_sentences_prep.
  rewrite (rebuild_Temp_id cur (release_dates_name x)) by apply final_world_release_dates.
  rewrite (rebuild_Temp_id cur (last_exit_name x)) by apply final_world_last_exit.
  rewrite (rebuild_Temp_id cur (admit_name s e)) by apply final_world_admit.
  rewrite (rebuild_Temp_id cur (recidivism_name s e)) by apply final_world_recidivism.
  apply rebuild_Main_id; apply final_world_recidivism_labels.
Qed.

End FinalWorld.

(** ** ISO dates: the order of the texts is the order of the days *)

Lemma string_compare_app_same p a b :
  String.compare (p +:+ a) (p +:+ b) = String.compare a b.
Proof. induction p as [|c p IH]; simpl; [done|]. by rewrite ascii_compare_refl. Qed.

Lemma string_compare_app_lt p1 p2 a b :
  String.length p1 = String.length p2 →
  String.compare p1 p2 = Lt → String.compare (p1 +:+ a) (p2 +:+ b) = Lt.
Proof.
  revert p2. induction p1 as [|c1 p1 IH]; intros [|c2 p2]; simpl; try done.
  intros [= Hlen]. destruct (Ascii.compare c1 c2); eauto.
Qed.

Lemma string_app_length a b :
  String.length (a +:+ b) = (String.length a + String.length b)%nat.
Proof. induction a as [|c a IH]; simpl; [done|]. by rewrite IH. Qed.

Lemma pad_length k n : String.length (pad k n) = k.
Proof.
  revert n. induction k as [|k IH]; intros n; simpl; [done|].
  rewrite string_app_length, IH. simpl. lia.
Qed.

Lemma digit_char_lt a b :
  0 ≤ a → a < b → b ≤ 9 → Ascii.compare (digit_char a) (digit_char b) = Lt.
Proof.
  intros Ha Hab Hb. unfold Ascii.compare, digit_char.
  rewrite !N_ascii_embedding by (rewrite !Z.mod_small by lia; lia).
  apply N.compare_lt_iff. rewrite !Z.mod_small by lia. lia.
Qed.

Lemma digit_char_mod n : digit_char (n mod 10) = digit_char n.
Proof. unfold digit_char. by rewrite Z.mod_mod. Qed.

Lemma pad_lt k a b :
  0 ≤ a → a < b → b < 10 ^ Z.of_nat k → String.compare (pad k a) (pad k b) = Lt.
Proof.
  revert a b. induction k as [|k IH]; intros a b Ha Hab Hb.
  { simpl in Hb. lia. }
  rewrite Nat2Z.inj_succ, Z.pow_succ_r in Hb by lia. simpl.
  destruct (decide (a / 10 = b / 10)) as [Heq|Hne].
  - rewrite Heq, string_compare_app_same. simpl.
    rewrite <- (digit_char_mod a), <- (digit_char_mod b).
    rewrite digit_char_lt; [done|..].
    + apply Z.mod_pos_bound. lia.
    + rewrite (Z.div_mod a 10), (Z.div_mod b 10) in Hab by lia. lia.
    + pose proof (Z.mod_pos_bound b 10). lia.
  - apply string_compare_app_lt; [by rewrite !pad_length|].
    apply IH.
    + apply Z.div_pos; lia.
    + assert (a / 10 ≤ b / 10) by (apply Z.div_le_mono; lia). lia.
    + apply Z.div_lt_upper_bound; lia.
Qed.

Lemma isoformat_next_day d :
  valid_date d → year (next_day d) ≤ 9999 →
  String.ltb (isoformat d) (isoformat (next_day d)) = true.
Proof.
  intros (Hy & Hm & Hd) Hy'. unfold String.ltb, isoformat, next_day in *.
  assert (days_in_month (year d) (month d) ≤ 31) as Hdim.
  { unfold days_in_month. repeat case_match; lia. }
  destruct (Z.ltb_spec (day d) (days_in_month (year d) (month d))).
  - cbn [year month day].
    repeat (rewrite string_compare_app_same; cbn -[pad]).
    rewrite pad_lt; [done|lia..].
  - destruct (Z.ltb_spec (month d) 12); cbn [year month day] in *.
    + repeat (rewrite string_compare_app_same; cbn -[pad]).
      rewrite string_compare_app_lt; [done|by rewrite !pad_length|].
      apply pad_lt; lia.
    + rewrite string_compare_app_lt; [done|by rewrite !pad_length|].
      apply pad_lt; lia.
Qed.

Lemma string_compare_app p1 p2 a b :
  String.length p1 = String.length p2 →
  String.compare (p1 +:+ a) (p2 +:+ b) =
    match String.compare p1 p2 with Eq => String.compare a b | c => c end.
Proof.
  revert p2. induction p1 as [|c1 p1 IH]; intros [|c2 p2]; simpl; try done.
  intros [= Hlen]. destruct (Ascii.compare c1 c2); eauto.
Qed.

Lemma pad_compare k a b :
  0 ≤ a < 10 ^ Z.of_nat k → 0 ≤ b < 10 ^ Z.of_nat k →
  String.compare (pad k a) (pad k b) = (a ?= b).
Proof.
  intros Ha Hb. destruct (Z.compare_spec a b) as [->|Hlt|Hgt].
  - apply string_compare_refl.
  - apply pad_lt; lia.
  - rewrite String.compare_antisym, pad_lt by lia. done.
Qed.

(** The texts of two dates compare as the dates do, year first. *)
Lemma isoformat_compare a b :
  valid_date a → valid_date b →
  String.compare (isoformat a) (isoformat b) =
    match year a ?= year b with
    | Eq => match month a ?= month b with Eq => day a ?= day b | c => c end
    | c => c
    end.
Proof.
  intros (Hya & Hma & Hda) (Hyb & Hmb & Hdb).
  assert (∀ y m, days_in_month y m ≤ 31) as Hdim.
  { intros y m. unfold days_in_month. repeat case_match; lia. }
  pose proof (Hdim (year a) (month a)). pose proof (Hdim (year b) (month b)).
  unfold isoformat.
  rewrite (string_compare_app (pad 4 _)) by (by rewrite !pad_length).
  rewrite pad_compare by lia. destruct (year a ?= year b); try done.
  change (String.compare ("-" +:+ ?x) ("-" +:+ ?y)) with (String.compare x y).
  rewrite (string_compare_app (pad 2 _)) by (by rewrite !pad_length).
  rewrite pad_compare by lia. destruct (month a ?= month b); try done.
  change (String.compare ("-" +:+ ?x) ("-" +:+ ?y)) with (String.compare x y).
  apply pad_compare; lia.
Qed.

Lemma isoformat_leb a b :
  valid_date a → valid_date b →
  String.leb (isoformat a) (isoformat b) = true ↔ date_le a b.
Proof.
  intros Ha Hb. unfold String.leb, date_le. rewrite isoformat_compare by done.
  destruct (Z.compare_spec (year a) (year b)), (Z.compare_spec (month a) (month b)),
    (Z.compare_spec (day a) (day b)); split; try done; lia.
Qed.

(** On ISO texts the window of the store is the window of the calendar. *)
Lemma in_window_isoformat lo hi d :
  valid_date lo → valid_date hi → valid_date d →
  in_window (isoformat lo) (isoformat hi) (VText (isoformat d)) ↔
  date_le lo d ∧ date_le d hi.
Proof.
  intros Hlo Hhi Hd. rewrite in_window_text, !isoformat_leb by done. done.
Qed.

(** An ISO text is made of digits and hyphens: it is spliced as it is. *)
Lemma has_char_app c a b : has_char c (a +:+ b) = has_char c a || has_char c b.
Proof. induction a as [|c' a IH]; simpl; [done|]. by destruct (Ascii.eqb c c'). Qed.

Lemma digit_char_neq c n :
  (N_of_ascii c < 48 ∨ 57 < N_of_ascii c)%N → Ascii.eqb c (digit_char n) = false.
Proof.
  intros Hc. apply Ascii.eqb_neq. intros ->. unfold digit_char in Hc.
  pose proof (Z.mod_pos_bound n 10 eq_refl) as Hn.
  rewrite N_ascii_embedding in Hc by lia. lia.
Qed.

Lemma has_char_pad c k n :
  (N_of_ascii c < 48 ∨ 57 < N_of_ascii c)%N → has_char c (pad k n) = false.
Proof.
  intros Hc. revert n. induction k as [|k IH]; intros n; [done|].
  cbn [pad]. rewrite has_char_app, IH. cbn [has_char orb].
  by rewrite digit_char_neq.
Qed.

Lemma isoformat_plain d : plain (isoformat d).
Proof.
  unfold plain, isoformat.
  split; rewrite !has_char_app, !has_char_pad by (vm_compute; lia || (left; done));
    done.
Qed.

(** ** The tables a returning call leaves, and the table it reads *)

Section Returning.
Variable date : value → option string.
Variable parse : string → option datetime.
Variable cur : connection.

Lemma create_labels_inv fe ps pe conn w w' df P :
  prepared date cur w P →
  create_labels date parse cur fe ps pe conn w = (w', Return df) →
  ∃ px py pz,
    parse fe = Some px ∧ parse ps = Some py ∧ parse pe = Some pz ∧
    w' = final_world cur fe ps pe (year px) (year py) (year pz) P w ∧
    read_sql (recidivism_labels_name (year py) (year pz)) conn w' = Ok df.
Proof.
  intros HP (px & py & pz & P' & Hx & Hy & Hz & HP' & _ & _ & Hw & Hr)%create_labels_Return.
  rewrite <- (prepared_inj _ _ _ _ _ HP HP') in Hw. exists px, py, pz. done.
Qed.

(** A connection on the database of the cursor reads the label table the
    script created, unless a temporary table of its own hides it. *)
Lemma read_sql_recidivism_labels fe ps pe x s e P conn w :
  conn_db conn = conn_db cur →
  conn = cur ∨ temporary w !! (conn, recidivism_labels_name s e) = None →
  read_sql (recidivism_labels_name s e) conn (final_world cur fe ps pe x s e P w)
    = Ok (recidivism_labels fe ps pe P).
Proof.
  intros Hdb Hc. unfold read_sql, from, find_table. rewrite Hdb.
  rewrite (proj2 (final_world_recidivism_labels cur fe ps pe x s e P w)).
  destruct (decide (conn = cur)) as [->|Hne].
  - by rewrite (proj1 (final_world_recidivism_labels cur fe ps pe x s e P w)).
  - rewrite final_world_temporary_frame by auto.
    destruct Hc as [?|Hc]; [done|]. by rewrite Hc.
Qed.

Lemma create_labels_cur fe ps pe w w' df P :
  prepared date cur w P →
  create_labels date parse cur fe ps pe cur w = (w', Return df) →
  df = recidivism_labels fe ps pe P.
Proof.
  intros HP (px & py & pz & _ & _ & _ & -> & Hr)%(create_labels_inv _ _ _ _ _ _ _ _ HP).
  rewrite read_sql_recidivism_labels in Hr by auto. congruence.
Qed.

(** Every statement touches the temporary tables of the connection that
    runs it and the persistent tables of its database, nothing else. *)
Lemma execute_frame c s w w' :
  execute c s w = Ok w' →
  (∀ c' n, c' ≠ c → temporary w' !! (c', n) = temporary w !! (c', n)) ∧
  (∀ db n, db ≠ conn_db c → persistent w' !! (db, n) = persistent w !! (db, n)).
Proof.
  destruct s as [m|sch m q]; simpl.
  - intros [= <-]. unfold drop_table_if_exists.
    destruct (temporary w !! (c, m)); simpl; split; intros;
      rewrite ?lookup_delete_ne by congruence; done.
  - destruct (has_table sch c m w); [done|].
    destruct (q (from c w)) as [t|]; [|done]. simpl. intros [= <-].
    destruct sch; simpl; split; intros; rewrite ?lookup_insert_ne by congruence; done.
Qed.

Lemma executescript_frame c script w :
  (∀ c' n, c' ≠ c →
     temporary (executescript c script w).1 !! (c', n) = temporary w !! (c', n)) ∧
  (∀ db n, db ≠ conn_db c →
     persistent (executescript c script w).1 !! (db, n) = persistent w !! (db, n)).
Proof.
  revert w. induction script as [|s script IH]; intros w; [done|]. simpl.
  destruct (execute c s w) as [w1|] eqn:H1; [|done].
  destruct (execute_frame _ _ _ _ H1) as [Ht Hp], (IH w1) as [Ht' Hp'].
  split; intros; [rewrite Ht' | rewrite Hp']; auto.
Qed.

Lemma create_labels_world fe ps pe conn w :
  (create_labels date parse cur fe ps pe conn w).1 =
  match parse fe, parse ps, parse pe with
  | Some px, Some py, Some pz =>
      (executescript cur (sql_script date fe ps pe (year px) (year py) (year pz)) w).1
  | _, _, _ => w
  end.
Proof.
  unfold create_labels.
  destruct (parse fe); [|done]. destruct (parse ps); [|done].
  destruct (parse pe); [|done].
  destruct (executescript _ _ _) as [w1 [err|]]; [done|]. simpl.
  by destruct (read_sql _ _ _).
Qed.

End Returning.

(** * The claims of the specification *)

Lemma filter_key_not_elem_of {A B} `{EqDecision B} (f : A → B) (l : list A) (b : B) :
  b ∉ f <$> l → filter (λ y, f y = b) l = [].
Proof.
  induction l as [|y l IH]; [done|].
  rewrite fmap_cons, not_elem_of_cons. intros [Hy Hl].
  rewrite filter_cons_False by congruence. by apply IH.
Qed.

Lemma filter_key_NoDup {A B} `{EqDecision B} (f : A → B) (l : list A) (x : A) :
  NoDup (f <$> l) → x ∈ l → filter (λ y, f y = f x) l = [x].
Proof.
  induction l as [|y l IH]; [by intros _ ?%elem_of_nil|].
  rewrite fmap_cons, NoDup_cons. intros [Hy Hnd] [->|Hx]%elem_of_cons.
  - rewrite filter_cons_True by done. f_equal. by apply filter_key_not_elem_of.
  - rewrite filter_cons_False; [by apply IH|].
    intros Heq. apply Hy. rewrite Heq. by apply list_elem_of_fmap_2.
Qed.

Lemma select_sentences_prep_ext date date' S :
  (∀ r j, r ∈ rows S → date' (cell r j) = date (cell r j)) →
  select_sentences_prep date' S = select_sentences_prep date S.
Proof.
  intros Hagree. unfold select_sentences_prep.
  destruct (column S "inmate_doc_number") as [i|]; [|done].
  destruct (column S "inmate_sentence_component") as [c|]; [|done].
  destruct (column S "sentence_begin_date_(for_max)") as [b|]; [|done].
  destruct (column S "actual_sentence_end_date") as [e|]; [|done].
  cbn [mbind result_bind mret result_ret]. do 2 f_equal.
  unfold sentences_prep_rows. apply list_fmap_ext. intros _ r Hr%list_elem_of_lookup_2.
  by rewrite !Hagree.
Qed.

Lemma release_dates_end_not_null fe P r : r ∈ rows (release_dates fe P) → cell r 1 ≠ VNull.
Proof. intros (r0 & _ & (s & Hs & _) & ->)%elem_of_release_dates. cbn. by rewrite Hs. Qed.

Lemma admit_begin_not_null ps pe P a : a ∈ rows (admit_table ps pe P) → cell a 2 ≠ VNull.
Proof. intros (r0 & _ & (s & Hs & _) & _ & ->)%elem_of_admit. cbn. by rewrite Hs. Qed.

Section Claims.
Variable date : value → option string.
Variable parse : string → option datetime.
Variable cur : connection.

(** C1, amended.  The three arguments holding no quote, for an identifier
    [k] with a row in [last_exit], the rows of the returned label table for
    [k] are exactly the row [(k, 1)] when [k] is not NULL and has a sentence
    record with component number 1 whose begin date is in the inclusive
    window [[prediction_start, prediction_end]], the date and the bounds
    being compared as the store compares texts; and exactly the row
    [(k, 0)] otherwise, as for the group of the rows with a NULL
    identifier. *)
Theorem label_iff_readmitted fe ps pe w w' df P k :
  text_literals fe ps pe →
  prepared date cur w P →
  create_labels date parse cur fe ps pe cur w = (w', Return df) →
  (∃ m, [k; m] ∈ rows (last_exit fe P)) →
  (k ≠ VNull ∧ readmitted ps pe P k →
   ∀ r, r ∈ rows df ∧ cell r 0 = k ↔ r = [k; VInt 1]) ∧
  (¬ (k ≠ VNull ∧ readmitted ps pe P k) →
   ∀ r, r ∈ rows df ∧ cell r 0 = k ↔ r = [k; VInt 0]).
Proof.
  intros _ HP Hrun [m Hm]. rewrite (create_labels_cur _ _ _ _ _ _ _ _ _ _ HP Hrun).
  apply elem_of_last_exit in Hm as (k' & Hrel & [= <- _]).
  split; intros Hre r; rewrite elem_of_recidivism_labels; split.
  - intros [(k' & _ & [(_ & _ & ->)|(Hno & ->)]) <-]; [done|].
    destruct Hno. simpl in *. done.
  - intros ->. split; [|done]. exists k. split; [done|]. left. tauto.
  - intros [(k' & _ & [(Hn & Hre' & ->)|(_ & ->)]) <-]; [|done].
    destruct Hre. simpl in *. done.
  - intros ->. split; [|done]. exists k. split; [done|]. right. done.
Qed.

(** C2.  For an individual with at least one row in [release_dates] (a
    release in the historical window), [last_exit] holds exactly one row,
    and its end date is a member of the end dates of the individual's
    in-window releases that none of them exceeds (the arguments holding no
    quote). *)
Theorem last_exit_one_row_max fe ps pe conn w w' df P k :
  text_literals fe ps pe →
  prepared date cur w P →
  create_labels date parse cur fe ps pe conn w = (w', Return df) →
  (∃ r, r ∈ rows (release_dates fe P) ∧ cell r 0 = k) →
  ∃ px m,
    parse fe = Some px ∧
    temporary w' !! (cur, release_dates_name (year px)) = Some (release_dates fe P) ∧
    temporary w' !! (cur, last_exit_name (year px)) = Some (last_exit fe P) ∧
    filter (λ r, cell r 0 = k) (rows (last_exit fe P)) = [[k; VText m]] ∧
    VText m ∈ release_ends fe P k ∧
    ∀ d, d ∈ release_ends fe P k → sql_le d (VText m) = Some true.
Proof.
  intros _ HP (px & py & pz & Hx & _ & _ & -> & _)%(create_labels_inv _ _ _ _ _ _ _ _ _ _ _ HP).
  intros (r0 & Hr0 & Hk).
  assert (Forall (λ v, ∃ s, v = VText s) (release_ends fe P k)) as Htexts.
  { apply Forall_forall. intros v (r & -> & [_ Hr]%list_elem_of_filter)%list_elem_of_fmap.
    apply elem_of_release_dates in Hr as (r1 & _ & (s & Hs & _) & ->). by exists s. }
  assert (release_ends fe P k ≠ []) as Hne.
  { intros Hnil. apply (elem_of_nil (cell r0 1)). rewrite <- Hnil.
    unfold release_ends. apply (list_elem_of_fmap_2 (λ r, cell r 1)).
    by apply list_elem_of_filter. }
  destruct (sql_max_texts _ Hne Htexts) as (m & Hmax & Hin & Hub).
  exists px, m. split; [done|].
  split; [apply final_world_release_dates|]. split; [apply final_world_last_exit|].
  split; [|split; [done|]].
  - assert ([k; VText m] ∈ rows (last_exit fe P)) as Hrow.
    { apply elem_of_last_exit. exists k. rewrite Hmax. split; [|done].
      apply released_iff, list_elem_of_fmap. eauto. }
    apply (filter_key_NoDup (λ r, cell r 0) _ [k; VText m]); [|done].
    apply ids_last_exit_NoDup.
  - intros d Hd. destruct (proj1 (Forall_forall _ _) Htexts d Hd) as [s ->].
    rewrite sql_le_text. f_equal. by apply Hub.
Qed.


(** C5, amended.  For arguments written YYYY-MM-DD (which hold no quote)
    and stored dates written so, both windows are intervals of the
    calendar with their bounds included: a release is in [release_dates]
    exactly when its end date is between 2000-01-01 and [features_end], an
    admission with component number 1 is in the table [admit] exactly when
    its begin date is between [prediction_start] and [prediction_end].  So
    a release dated [features_end] is in [release_dates] (the window not
    being empty), a release dated one day later is not; an admission dated
    [prediction_start] or [prediction_end] is in [admit] (the window not
    being empty). *)
Theorem window_bounds_inclusive dfe dps dpe conn w w' df P :
  valid_date dfe → valid_date dps → valid_date dpe →
  prepared date cur w P →
  create_labels date parse cur (isoformat dfe) (isoformat dps) (isoformat dpe) conn w
    = (w', Return df) →
  text_literals (isoformat dfe) (isoformat dps) (isoformat dpe) ∧
  ∃ px py pz,
    parse (isoformat dfe) = Some px ∧ parse (isoformat dps) = Some py ∧
    parse (isoformat dpe) = Some pz ∧
    temporary w' !! (cur, release_dates_name (year px))
      = Some (release_dates (isoformat dfe) P) ∧
    temporary w' !! (cur, admit_name (year py) (year pz))
      = Some (admit_table (isoformat dps) (isoformat dpe) P) ∧
    (∀ k d, valid_date d →
       [k; VText (isoformat d)] ∈ rows (release_dates (isoformat dfe) P) ↔
       (∃ r, r ∈ P ∧ cell r 0 = k ∧ cell r 3 = VText (isoformat d)) ∧
       date_le (Datetime 2000 1 1) d ∧ date_le d dfe) ∧
    (∀ k d, valid_date d →
       [k; VInt 1; VText (isoformat d)]
         ∈ rows (admit_table (isoformat dps) (isoformat dpe) P) ↔
       (∃ r, r ∈ P ∧ cell r 0 = k ∧ cell r 1 = VInt 1 ∧ cell r 2 = VText (isoformat d)) ∧
       date_le dps d ∧ date_le d dpe) ∧
    (date_le (Datetime 2000 1 1) dfe →
     ∀ r, r ∈ P → cell r 3 = VText (isoformat dfe) →
          [cell r 0; VText (isoformat dfe)] ∈ rows (release_dates (isoformat dfe) P)) ∧
    (year (next_day dfe) ≤ 9999 →
     ∀ k, [k; VText (isoformat (next_day dfe))] ∉ rows (release_dates (isoformat dfe) P)) ∧
    (date_le dps dpe →
     ∀ r, r ∈ P → cell r 1 = VInt 1 →
          cell r 2 = VText (isoformat dps) ∨ cell r 2 = VText (isoformat dpe) →
          [cell r 0; VInt 1; cell r 2]
            ∈ rows (admit_table (isoformat dps) (isoformat dpe) P)).
Proof.
  intros Hfe Hps Hpe HP
    (px & py & pz & Hx & Hy & Hz & -> & _)%(create_labels_inv _ _ _ _ _ _ _ _ _ _ _ HP).
  split; [repeat split; apply isoformat_plain|].
  exists px, py, pz. do 3 (split; [done|]).
  split; [apply final_world_release_dates|]. split; [apply final_world_admit|].
  assert (valid_date (Datetime 2000 1 1)) as H2000 by (by vm_compute).
  assert (∀ k d, valid_date d →
            [k; VText (isoformat d)] ∈ rows (release_dates (isoformat dfe) P) ↔
            (∃ r, r ∈ P ∧ cell r 0 = k ∧ cell r 3 = VText (isoformat d)) ∧
            date_le (Datetime 2000 1 1) d ∧ date_le d dfe) as Hrel.
  { intros k d Hd. rewrite elem_of_release_dates.
    rewrite <- (in_window_isoformat (Datetime 2000 1 1) dfe d) by done.
    change (isoformat (Datetime 2000 1 1)) with "2000-01-01". split.
    - intros (r & Hr & Hw & [= -> Hd']). rewrite <- Hd' in Hw. split; [eauto|done].
    - intros [(r & Hr & <- & Hd') Hw]. exists r. by rewrite Hd'. }
  assert (∀ k d, valid_date d →
            [k; VInt 1; VText (isoformat d)]
              ∈ rows (admit_table (isoformat dps) (isoformat dpe) P) ↔
            (∃ r, r ∈ P ∧ cell r 0 = k ∧ cell r 1 = VInt 1 ∧
                  cell r 2 = VText (isoformat d)) ∧
            date_le dps d ∧ date_le d dpe) as Hadm.
  { intros k d Hd. rewrite elem_of_admit.
    rewrite <- (in_window_isoformat dps dpe d) by done. split.
    - intros (r & Hr & Hw & Hc & [= -> Hc' Hd']). rewrite <- Hd' in Hw.
      split; [eauto|done].
    - intros [(r & Hr & <- & Hc & Hd') Hw]. exists r. by rewrite Hc, Hd'. }
  do 2 (split; [done|]). split; [|split].
  - intros Hlo r Hr He. apply Hrel; [done|]. split; [eauto|]. split; [done|].
    apply isoformat_leb; [done..|]. apply string_leb_refl.
  - intros Hy' k (r & _ & (s & Hs & _ & Hle) & [= -> Hs'])%elem_of_release_dates.
    rewrite Hs in Hs'. injection Hs' as <-.
    pose proof (isoformat_next_day dfe Hfe Hy') as Hlt.
    apply string_ltb_not_leb in Hlt. congruence.
  - intros Hpp r Hr Hc Hb.
    assert (date_le dps dps ∧ date_le dpe dpe) as [Hs He].
    { split; apply isoformat_leb; try done; apply string_leb_refl. }
    destruct Hb as [Hb|Hb]; rewrite Hb; apply Hadm; try done; split; eauto.
Qed.

(** C7, amended.  [date'] and [parse'] are the two library functions at
    the time of the second call.  When they give on the fields of
    [sentences] and on the three arguments what they gave at the first
    call, as they do on fields and arguments that do not read the clock,
    and the arguments hold no quote, the second call, on the world the
    first one left, finds [sentences] unchanged, returns the same table and
    leaves that world as it is. *)
Theorem create_labels_idempotent date' parse' fe ps pe conn w w' df S :
  text_literals fe ps pe →
  find_table cur w "sentences" = Some S →
  (∀ r j, r ∈ rows S → date' (cell r j) = date (cell r j)) →
  year <$> parse' fe = year <$> parse fe →
  year <$> parse' ps = year <$> parse ps →
  year <$> parse' pe = year <$> parse pe →
  create_labels date parse cur fe ps pe conn w = (w', Return df) →
  find_table cur w' "sentences" = Some S ∧
  create_labels date' parse' cur fe ps pe conn w' = (w', Return df).
Proof.
  intros _ HS Hdate Hfe Hps Hpe
    (px & py & pz & P & Hx & Hy & Hz & (S' & HS' & HT) & _ & _ & -> & Hr)%create_labels_Return.
  rewrite HS in HS'. injection HS' as <-.
  rewrite Hx in Hfe. rewrite Hy in Hps. rewrite Hz in Hpe.
  destruct (parse' fe) as [px'|] eqn:Hx'; [|done].
  destruct (parse' ps) as [py'|] eqn:Hy'; [|done].
  destruct (parse' pe) as [pz'|] eqn:Hz'; [|done].
  injection Hfe as Hfe. injection Hps as Hps. injection Hpe as Hpe.
  split; [by rewrite final_world_sentences|].
  apply create_labels_Return. exists px', py', pz', P. do 3 (split; [done|]).
  rewrite Hfe, Hps, Hpe.
  split.
  { exists S. rewrite final_world_sentences. split; [done|].
    by rewrite (select_sentences_prep_ext date date'). }
  split; [apply final_world_clash; set_solver|].
  split; [apply final_world_clash; set_solver|].
  by rewrite final_world_idem.
Qed.

(** C8, amended.  A returning call whose arguments hold no quote leaves,
    among the persistent tables of the cursor's database, the table
    [recidivism_labels_<start>_<end>] named after the years parsed from
    [prediction_start] and [prediction_end], with the columns (identifier,
    recidivism); the returned table is that table when [conn] is the
    cursor's connection, or another connection on the same database
    without a temporary table of that name. *)
Theorem create_labels_leaves_named_table fe ps pe conn w w' df :
  text_literals fe ps pe →
  create_labels date parse cur fe ps pe conn w = (w', Return df) →
  ∃ py pz labels,
    parse ps = Some py ∧ parse pe = Some pz ∧
    persistent w' !! (conn_db cur,
      "recidivism_labels_" +:+ format_int (year py) +:+ "_" +:+ format_int (year pz))
      = Some labels ∧
    columns labels = ["inmate_doc_number"; "recidivism"] ∧
    (conn_db conn = conn_db cur →
     conn = cur ∨ temporary w !! (conn, recidivism_labels_name (year py) (year pz)) = None →
     df = labels).
Proof.
  intros _ (px & py & pz & P & Hx & Hy & Hz & _ & _ & _ & -> & Hr)%create_labels_Return.
  exists py, pz, (recidivism_labels fe ps pe P). do 2 (split; [done|]).
  split; [apply final_world_recidivism_labels|]. split; [done|].
  intros Hdb Hc. rewrite read_sql_recidivism_labels in Hr by done. congruence.
Qed.


(** C6, amended.  An argument that does not parse makes [create_labels]
    raise the parser's error before any statement runs.  The date fields of
    [sentences] cannot make it raise: when the arguments parse and hold no
    quote, [sentences] has its four columns and no name is taken twice, the
    call returns, whatever [date] makes of the fields.  Every row of
    [sentences] is in [sentences_prep] with what [date] made of its two
    date fields, NULL where [date] gave NULL; and a NULL date is outside
    both windows: no row of [release_dates] has a NULL end date, no row of
    [admit] a NULL begin date. *)
Theorem date_parse_failures fe ps pe conn w :
  (parse fe = None ∨ parse ps = None ∨ parse pe = None →
   create_labels date parse cur fe ps pe conn w = (w, Raise ParserError)) ∧
  (text_literals fe ps pe →
   ∀ px py pz S i c b e,
     parse fe = Some px → parse ps = Some py → parse pe = Some pz →
     find_table cur w "sentences" = Some S →
     column S "inmate_doc_number" = Ok i →
     column S "inmate_sentence_component" = Ok c →
     column S "sentence_begin_date_(for_max)" = Ok b →
     column S "actual_sentence_end_date" = Ok e →
     ¬ clash cur "sentences_prep" w →
     ¬ clash cur (recidivism_labels_name (year py) (year pz)) w →
     ∃ w' P df,
       create_labels date parse cur fe ps pe cur w = (w', Return df) ∧
       rows df ≡ₚ rows (recidivism_labels fe ps pe P) ∧
       persistent w' !! (conn_db cur, "sentences_prep") = Some (sentences_prep P) ∧
       temporary w' !! (cur, release_dates_name (year px)) = Some (release_dates fe P) ∧
       temporary w' !! (cur, admit_name (year py) (year pz)) = Some (admit_table ps pe P) ∧
       (∀ r, r ∈ rows S →
             [cell r i; cast_integer (cell r c);
              text_or_null (date (cell r b)); text_or_null (date (cell r e))] ∈ P) ∧
       (∀ r, r ∈ rows S → date (cell r b) = None → date (cell r e) = None →
             [cell r i; cast_integer (cell r c); VNull; VNull] ∈ P) ∧
       (∀ k, [k; VNull] ∉ rows (release_dates fe P)) ∧
       (∀ k n, [k; n; VNull] ∉ rows (admit_table ps pe P))).
Proof.
  split.
  - unfold create_labels. intros [->|[H|H]]; [done|..].
    + destruct (parse fe); [|done]. by rewrite H.
    + destruct (parse fe); [|done]. destruct (parse ps); [|done]. by rewrite H.
  - intros _ px py pz S i c b e Hx Hy Hz HS Hi Hc Hb He Hc1 Hc2.
    set (P := sentences_prep_rows date i c b e (rows S)).
    assert (prepared date cur w P) as HP.
    { exists S. split; [done|]. unfold select_sentences_prep.
      rewrite Hi, Hc, Hb, He. done. }
    exists (final_world cur fe ps pe (year px) (year py) (year pz) P w), P,
      (recidivism_labels fe ps pe P).
    split; [|split; [done|split; [|split; [|split; [|split; [|split; [|split]]]]]]].
    + apply create_labels_Return. exists px, py, pz, P.
      repeat (split; [done|]). by apply read_sql_recidivism_labels; auto.
    + apply final_world_sentences_prep.
    + apply final_world_release_dates.
    + apply final_world_admit.
    + intros r Hr. unfold P, sentences_prep_rows.
      apply list_elem_of_fmap. by exists r.
    + intros r Hr Hb' He'. unfold P, sentences_prep_rows.
      apply list_elem_of_fmap. exists r. by rewrite Hb', He'.
    + intros k Hk%release_dates_end_not_null. done.
    + intros k n Hk%admit_begin_not_null. done.
Qed.

(** C10.  The script runs on the cursor, the read on [conn]: the world a
    call leaves does not depend on [conn], and the temporary tables of the
    other connections are left as they were; when the arguments hold no
    quote, the persistent tables of the other databases are left as they
    were, and the returned table is what [conn] reads under the name of the
    label table, which is the table the script created when [conn] is on
    the database of the cursor (and has no temporary table of that name).
    On another database the read misses the table: in the scenario the
    script creates it and the call raises. *)
Theorem script_on_cursor_read_on_conn fe ps pe conn w :
  (create_labels date parse cur fe ps pe conn w).1
    = (create_labels date parse cur fe ps pe cur w).1 ∧
  (∀ c n, c ≠ cur →
     temporary (create_labels date parse cur fe ps pe conn w).1 !! (c, n)
       = temporary w !! (c, n)) ∧
  (text_literals fe ps pe →
   ∀ db n, db ≠ conn_db cur →
     persistent (create_labels date parse cur fe ps pe conn w).1 !! (db, n)
       = persistent w !! (db, n)) ∧
  (text_literals fe ps pe →
   ∀ w' df, create_labels date parse cur fe ps pe conn w = (w', Return df) →
     ∃ py pz, parse ps = Some py ∧ parse pe = Some pz ∧
       read_sql (recidivism_labels_name (year py) (year pz)) conn w' = Ok df ∧
       (conn_db conn = conn_db cur →
        conn = cur ∨ temporary w !! (conn, recidivism_labels_name (year py) (year pz)) = None →
        persistent w' !! (conn_db cur, recidivism_labels_name (year py) (year pz)) = Some df)) ∧
  ((scenario_call other_conn scenario_world).2
     = Raise (DatabaseError (no_such_table "recidivism_labels_2009_2013")) ∧
   persistent (scenario_call other_conn scenario_world).1
     !! ("ncdoc.db", "recidivism_labels_2009_2013") = Some scenario_df).
Proof.
  split; [by rewrite !create_labels_world|].
  split; [|split; [|split]].
  - intros c n Hc. rewrite create_labels_world.
    destruct (parse fe); [|done]. destruct (parse ps); [|done].
    destruct (parse pe); [|done]. by apply executescript_frame.
  - intros _ db n Hdb. rewrite create_labels_world.
    destruct (parse fe); [|done]. destruct (parse ps); [|done].
    destruct (parse pe); [|done]. by apply executescript_frame.
  - intros _ w' df (px & py & pz & P & Hx & Hy & Hz & _ & _ & _ & -> & Hr)%create_labels_Return.
    exists py, pz. do 3 (split; [done|]). intros Hdb Hc.
    rewrite read_sql_recidivism_labels in Hr by done. injection Hr as <-.
    apply final_world_recidivism_labels.
  - split; by vm_compute.
Qed.

End Claims.

(** ** The runs of the examples *)

Lemma scenario_prepared : prepared iso_date notebook_conn scenario_world scenario_prep.
Proof. exists scenario_sentences. split; reflexivity. Qed.

Lemma scenario_run :
  scenario_call notebook_conn scenario_world = (scenario_final, Return scenario_df).
Proof. by vm_compute. Qed.

Lemma boundary_prepared : prepared iso_date notebook_conn boundary_world boundary_prep.
Proof. exists boundary_sentences. split; reflexivity. Qed.

Lemma boundary_run :
  scenario_call notebook_conn boundary_world = (boundary_final, Return boundary_df).
Proof. by vm_compute. Qed.

Lemma scenario_literals : text_literals "2008-12-31" "2009-01-01" "2013-12-31".
Proof. by vm_compute. Qed.

Lemma null_prepared : prepared iso_date notebook_conn null_world null_prep.
Proof. exists (Table sentences_columns null_prep). split; reflexivity. Qed.

Lemma null_run :
  scenario_call notebook_conn null_world
    = ((scenario_call notebook_conn null_world).1, Return null_df).
Proof. by vm_compute. Qed.

Lemma repeat_prepared : prepared iso_date notebook_conn repeat_world repeat_prep.
Proof. exists (Table sentences_columns repeat_prep). split; reflexivity. Qed.

Lemma repeat_run :
  scenario_call notebook_conn repeat_world
    = ((scenario_call notebook_conn repeat_world).1, Return repeat_df).
Proof. by vm_compute. Qed.

(** C4.  On the three-row source of the scenario, with the historical
    window ending 2008-12-31 and the prediction window
    [[2009-01-01, 2013-12-31]], [create_labels] returns the label set
    {(1, 1), (2, 0)}. *)
Theorem scenario_labels :
  ∃ df,
    (create_labels iso_date iso_parse notebook_conn
       "2008-12-31" "2009-01-01" "2013-12-31" notebook_conn scenario_world).2
      = Return df ∧
    columns df = ["inmate_doc_number"; "recidivism"] ∧
    rows df ≡ₚ [[VInt 1; VInt 1]; [VInt 2; VInt 0]].
Proof. exists scenario_df. split; [by vm_compute|]. done. Qed.

(** Date fields that are no dates do not abort the run: the source below
    has two, and the call returns a table. *)
Lemma malformed_date_field_not_fatal :
  iso_date (VText "13/45/2009") = None ∧
  iso_date (VText "not a date") = None ∧
  (create_labels iso_date iso_parse notebook_conn
     "2008-12-31" "2009-01-01" "2013-12-31" notebook_conn malformed_world).2
    = Return (Table ["inmate_doc_number"; "recidivism"] [[VInt 2; VInt 0]]).
Proof. repeat split; by vm_compute. Qed.

(** The rows with a NULL identifier have a row in [last_exit] and a
    sentence record with component number 1 that begins in the prediction
    window, and their label is 0. *)
Lemma null_group_labelled_0 :
  text_literals "2008-12-31" "2009-01-01" "2013-12-31" ∧
  [VNull; VText "2005-06-01"] ∈ rows (last_exit "2008-12-31" null_prep) ∧
  readmitted "2009-01-01" "2013-12-31" null_prep VNull ∧
  (create_labels iso_date iso_parse notebook_conn
     "2008-12-31" "2009-01-01" "2013-12-31" notebook_conn null_world).2
    = Return null_df ∧
  [VNull; VInt 0] ∈ rows null_df ∧
  ([VNull; VInt 1] ∉ rows null_df).
Proof.
  split; [by vm_compute|]. split; [vm_compute; left|]. split.
  { exists [VNull; VInt 1; VText "2009-03-01"; VText "2005-06-01"].
    split; [left|]. repeat split. by exists "2009-03-01". }
  split; [by vm_compute|]. split; [left|].
  unfold null_df. cbn [rows]. rewrite !not_elem_of_cons.
  repeat split; try done. apply not_elem_of_nil.
Qed.

(** An argument in another format that [parse] reads: with the end of the
    historical window written 12/31/2008, the release dated 2008-12-31 is
    not in [release_dates], and nobody is labelled. *)
Lemma slash_argument_excludes_window_end :
  slash_parse "12/31/2008" = Some (Datetime 2008 12 31) ∧
  text_literals "12/31/2008" "2009-01-01" "2013-12-31" ∧
  prepared iso_date notebook_conn boundary_world boundary_prep ∧
  [VInt 3; VInt 1; VText "1995-01-01"; VText "2008-12-31"] ∈ boundary_prep ∧
  ∃ w',
    create_labels iso_date slash_parse notebook_conn
      "12/31/2008" "2009-01-01" "2013-12-31" notebook_conn boundary_world
      = (w', Return (Table ["inmate_doc_number"; "recidivism"] [])) ∧
    temporary w' !! (notebook_conn, "release_dates_2000_2008")
      = Some (Table ["inmate_doc_number"; "sentence_end_date"] []).
Proof.
  split; [by vm_compute|]. split; [by vm_compute|].
  split; [exact boundary_prepared|]. split; [left|].
  exists (create_labels iso_date slash_parse notebook_conn
            "12/31/2008" "2009-01-01" "2013-12-31" notebook_conn boundary_world).1.
  split; by vm_compute.
Qed.

(** A date field that reads the clock: the same call on the next day, with
    [sentences] unchanged, returns another table. *)
Lemma clock_field_breaks_idempotence :
  text_literals "2008-12-31" "2009-01-01" "2013-12-31" ∧
  find_table notebook_conn clock_world "sentences" = Some clock_sentences ∧
  ∃ w1 w2,
    create_labels (date_on "2008-12-31") iso_parse notebook_conn
      "2008-12-31" "2009-01-01" "2013-12-31" notebook_conn clock_world
      = (w1, Return (Table ["inmate_doc_number"; "recidivism"] [[VInt 1; VInt 1]])) ∧
    find_table notebook_conn w1 "sentences" = Some clock_sentences ∧
    create_labels (date_on "2009-01-01") iso_parse notebook_conn
      "2008-12-31" "2009-01-01" "2013-12-31" notebook_conn w1
      = (w2, Return (Table ["inmate_doc_number"; "recidivism"] [])).
Proof.
  split; [by vm_compute|]. split; [by vm_compute|].
  set (w1 := (create_labels (date_on "2008-12-31") iso_parse notebook_conn
                "2008-12-31" "2009-01-01" "2013-12-31" notebook_conn clock_world).1).
  exists w1,
    (create_labels (date_on "2009-01-01") iso_parse notebook_conn
       "2008-12-31" "2009-01-01" "2013-12-31" notebook_conn w1).1.
  repeat split; by vm_compute.
Qed.

(** The table read through a second connection is not the relation the
    call leaves: the connection has a temporary table of that name. *)
Lemma read_on_second_connection_differs :
  text_literals "2008-12-31" "2009-01-01" "2013-12-31" ∧
  ∃ w',
    scenario_call second_conn shadow_world = (w', Return (sentences_prep [])) ∧
    persistent w' !! ("ncdoc.db", "recidivism_labels_2009_2013") = Some scenario_df ∧
    sentences_prep [] ≠ scenario_df.
Proof.
  split; [by vm_compute|].
  exists (scenario_call second_conn shadow_world).1.
  repeat split; by vm_compute.
Qed.

(** ** The theorems at the examples *)

Lemma label_iff_readmitted_witness :
  (∀ r, r ∈ rows scenario_df ∧ cell r 0 = VInt 1 ↔ r = [VInt 1; VInt 1]) ∧
  (∀ r, r ∈ rows scenario_df ∧ cell r 0 = VInt 2 ↔ r = [VInt 2; VInt 0]) ∧
  (∀ r, r ∈ rows null_df ∧ cell r 0 = VNull ↔ r = [VNull; VInt 0]).
Proof.
  split; [|split].
  - refine (proj1 (label_iff_readmitted iso_date iso_parse notebook_conn
              "2008-12-31" "2009-01-01" "2013-12-31" scenario_world scenario_final
              scenario_df scenario_prep (VInt 1)
              scenario_literals scenario_prepared scenario_run _) _).
    + exists (VText "2005-06-01"). vm_compute. left.
    + split; [done|].
      exists [VInt 1; VInt 1; VText "2009-03-01"; VText "2005-06-01"].
      split; [left|]. repeat split. by exists "2009-03-01".
  - refine (proj2 (label_iff_readmitted iso_date iso_parse notebook_conn
              "2008-12-31" "2009-01-01" "2013-12-31" scenario_world scenario_final
              scenario_df scenario_prep (VInt 2)
              scenario_literals scenario_prepared scenario_run _) _).
    + exists (VText "2003-01-01"). vm_compute. right. left.
    + intros [_ (r & Hr & Hk & _ & (s & Hs & Hlo & _))].
      unfold scenario_prep in Hr.
      repeat (apply elem_of_cons in Hr as [->|Hr]); try done.
      * injection Hs as <-. done.
      * by apply elem_of_nil in Hr.
  - refine (proj2 (label_iff_readmitted iso_date iso_parse notebook_conn
              "2008-12-31" "2009-01-01" "2013-12-31" null_world
              (scenario_call notebook_conn null_world).1
              null_df null_prep VNull
              scenario_literals null_prepared null_run _) _).
    + exists (VText "2005-06-01"). vm_compute. left.
    + by intros [? _].
Defined.

Lemma last_exit_one_row_max_witness :
  release_ends "2008-12-31" repeat_prep (VInt 7)
    = [VText "2003-05-05"; VText "2006-07-08"; VText "2004-02-02"] ∧
  ∃ px m,
    iso_parse "2008-12-31" = Some px ∧
    temporary (scenario_call notebook_conn repeat_world).1
      !! (notebook_conn, release_dates_name (year px))
      = Some (release_dates "2008-12-31" repeat_prep) ∧
    temporary (scenario_call notebook_conn repeat_world).1
      !! (notebook_conn, last_exit_name (year px))
      = Some (last_exit "2008-12-31" repeat_prep) ∧
    filter (λ r, cell r 0 = VInt 7) (rows (last_exit "2008-12-31" repeat_prep))
      = [[VInt 7; VText m]] ∧
    VText m ∈ release_ends "2008-12-31" repeat_prep (VInt 7) ∧
    ∀ d, d ∈ release_ends "2008-12-31" repeat_prep (VInt 7) →
         sql_le d (VText m) = Some true.
Proof.
  split; [by vm_compute|].
  apply (last_exit_one_row_max iso_date iso_parse notebook_conn
           "2008-12-31" "2009-01-01" "2013-12-31" notebook_conn
           repeat_world (scenario_call notebook_conn repeat_world).1
           repeat_df repeat_prep (VInt 7)
           scenario_literals repeat_prepared repeat_run).
  exists [VInt 7; VText "2003-05-05"]. split; [|done]. vm_compute. left.
Defined.


Lemma window_bounds_inclusive_witness :
  [VInt 3; VText "2008-12-31"] ∈ rows (release_dates "2008-12-31" boundary_prep) ∧
  ([VInt 4; VText "2009-01-01"] ∉ rows (release_dates "2008-12-31" boundary_prep)) ∧
  ([VInt 5; VText "1999-12-31"] ∉ rows (release_dates "2008-12-31" boundary_prep)) ∧
  [VInt 3; VInt 1; VText "2009-01-01"]
    ∈ rows (admit_table "2009-01-01" "2013-12-31" boundary_prep) ∧
  [VInt 6; VInt 1; VText "2013-12-31"]
    ∈ rows (admit_table "2009-01-01" "2013-12-31" boundary_prep).
Proof.
  assert (valid_date (Datetime 2008 12 31)) as Hfe by (by vm_compute).
  assert (valid_date (Datetime 2009 1 1)) as Hps by (by vm_compute).
  assert (valid_date (Datetime 2013 12 31)) as Hpe by (by vm_compute).
  destruct (window_bounds_inclusive iso_date iso_parse notebook_conn
              (Datetime 2008 12 31) (Datetime 2009 1 1) (Datetime 2013 12 31)
              notebook_conn boundary_world boundary_final boundary_df boundary_prep
              Hfe Hps Hpe boundary_prepared boundary_run)
    as (_ & px & py & pz & _ & _ & _ & _ & _ & Hrel & _ & Hend & Hlater & Hadmit).
  split; [|split; [|split; [|split]]].
  - apply (Hend ltac:(by left)
             [VInt 3; VInt 1; VText "1995-01-01"; VText "2008-12-31"]); [left | done].
  - apply (Hlater ltac:(by vm_compute) (VInt 4)).
  - intros Hin.
    apply (Hrel (VInt 5) (Datetime 1999 12 31) ltac:(by vm_compute)) in Hin
      as (_ & Hlo & _).
    unfold date_le in Hlo. cbn in Hlo. lia.
  - apply (Hadmit ltac:(by left)
             [VInt 3; VInt 1; VText "2009-01-01"; VText "2010-01-01"]);
      [do 3 right; left | done | by left].
  - apply (Hadmit ltac:(by left)
             [VInt 6; VInt 1; VText "2013-12-31"; VText "2000-01-01"]);
      [do 4 right; left | done | by right].
Defined.

Lemma create_labels_idempotent_witness :
  find_table notebook_conn scenario_final "sentences" = Some scenario_sentences ∧
  create_labels (date_on "2009-01-01") slash_parse notebook_conn
    "2008-12-31" "2009-01-01" "2013-12-31" notebook_conn scenario_final
    = (scenario_final, Return scenario_df).
Proof.
  apply (create_labels_idempotent (date_on "2008-12-31") iso_parse notebook_conn
           (date_on "2009-01-01") slash_parse
           "2008-12-31" "2009-01-01" "2013-12-31" notebook_conn
           scenario_world scenario_final scenario_df scenario_sentences
           scenario_literals); try reflexivity.
  intros r j Hr. unfold scenario_sentences in Hr. cbn [rows] in Hr.
    repeat (apply elem_of_cons in Hr as [->|Hr]); [..|by apply elem_of_nil in Hr];
      by destruct j as [|[|[|[|j]]]].
Defined.

Lemma create_labels_leaves_named_table_witness :
  persistent scenario_final !! ("ncdoc.db", "recidivism_labels_2009_2013")
    = Some scenario_df.
Proof.
  destruct (create_labels_leaves_named_table iso_date iso_parse notebook_conn
              "2008-12-31" "2009-01-01" "2013-12-31" notebook_conn
              scenario_world scenario_final scenario_df scenario_literals scenario_run)
    as (py & pz & labels & Hy & Hz & Hl & _ & Hdf).
  injection Hy as <-. injection Hz as <-.
  rewrite (Hdf eq_refl (or_introl eq_refl)). exact Hl.
Defined.


Lemma date_parse_failures_witness :
  create_labels iso_date iso_parse notebook_conn
    EmptyString "2009-01-01" "2013-12-31" notebook_conn malformed_world
    = (malformed_world, Raise ParserError) ∧
  ∃ w' P df,
    create_labels iso_date iso_parse notebook_conn
      "2008-12-31" "2009-01-01" "2013-12-31" notebook_conn malformed_world
      = (w', Return df) ∧
    rows df ≡ₚ rows (recidivism_labels "2008-12-31" "2009-01-01" "2013-12-31" P) ∧
    persistent w' !! ("ncdoc.db", "sentences_prep") = Some (sentences_prep P) ∧
    [VInt 1; VInt 1; VNull; VNull] ∈ P ∧
    ([VInt 1; VNull] ∉ rows (release_dates "2008-12-31" P)) ∧
    ([VInt 1; VInt 1; VNull] ∉ rows (admit_table "2009-01-01" "2013-12-31" P)).
Proof.
  split.
  - apply (date_parse_failures iso_date iso_parse notebook_conn
             EmptyString "2009-01-01" "2013-12-31" notebook_conn malformed_world).
    by left.
  - destruct (proj2 (date_parse_failures iso_date iso_parse notebook_conn
             "2008-12-31" "2009-01-01" "2013-12-31" notebook_conn malformed_world)
             scenario_literals
             (Datetime 2008 12 31) (Datetime 2009 1 1) (Datetime 2013 12 31)
             malformed_sentences 0%nat 1%nat 2%nat 3%nat)
      as (w' & P & df & Hrun & Hperm & Hprep & _ & _ & _ & Hnull & Hrel & Hadm);
      try done.
    + by intros [[? ?] _].
    + by intros [[? ?] _].
    + exists w', P, df. do 3 (split; [done|]). split; [|split; [apply Hrel|apply Hadm]].
      apply (Hnull [VInt 1; VInt 1; VText "13/45/2009"; VText "not a date"]);
        [left | done | done].
Defined.

Lemma script_on_cursor_read_on_conn_witness :
  (scenario_call second_conn scenario_world).1 = scenario_final ∧
  persistent scenario_final !! ("ncdoc.db", "recidivism_labels_2009_2013")
    = Some scenario_df.
Proof.
  destruct (script_on_cursor_read_on_conn iso_date iso_parse notebook_conn
              "2008-12-31" "2009-01-01" "2013-12-31" second_conn scenario_world)
    as (Hw & _ & _ & Hread & _).
  split; [exact Hw|].
  destruct (Hread scenario_literals scenario_final scenario_df)
    as (py & pz & Hy & Hz & _ & Hsame).
  { by vm_compute. }
  injection Hy as <-. injection Hz as <-.
  apply (Hsame eq_refl). by right.
Defined.

(** * Further properties of the notebook *)

(** ** Statements touch the table they name *)

Lemma execute_frame_name c s w w' n :
  execute c s w = Ok w' → n ≠ stmt_name s →
  (∀ c', temporary w' !! (c', n) = temporary w !! (c', n)) ∧
  (∀ db, persistent w' !! (db, n) = persistent w !! (db, n)).
Proof.
  destruct s as [m|sch m q]; simpl; intros H Hn.
  - injection H as <-. unfold drop_table_if_exists.
    destruct (temporary w !! (c, m)); simpl; split; intros;
      rewrite ?lookup_delete_ne by congruence; done.
  - destruct (has_table sch c m w); [done|].
    destruct (q (from c w)) as [t|]; [|done]. simpl in H. injection H as <-.
    destruct sch; simpl; split; intros; rewrite ?lookup_insert_ne by congruence; done.
Qed.

Lemma executescript_frame_name c script w n :
  n ∉ stmt_name <$> script →
  (∀ c', temporary (executescript c script w).1 !! (c', n) = temporary w !! (c', n)) ∧
  (∀ db, persistent (executescript c script w).1 !! (db, n) = persistent w !! (db, n)).
Proof.
  revert w. induction script as [|s script IH]; intros w Hn; [done|].
  rewrite fmap_cons, not_elem_of_cons in Hn. destruct Hn as [Hs Hn]. simpl.
  destruct (execute c s w) as [w1|] eqn:H1; [|done].
  destruct (execute_frame_name _ _ _ _ _ H1 Hs) as [Ht Hp], (IH w1 Hn) as [Ht' Hp'].
  split; intros; [rewrite Ht' | rewrite Hp']; auto.
Qed.

Lemma stmt_names_sql_script date fe ps pe x s e n :
  n ∈ stmt_name <$> sql_script date fe ps pe x s e ↔ n ∈ script_names x s e.
Proof. unfold sql_script, script_names. simpl. set_solver. Qed.

(** ** Helper facts on the derived tables and the names *)

Lemma labelled_iff_released fe ps pe P k :
  k ∈ (λ r, cell r 0) <$> rows (recidivism_labels fe ps pe P) ↔ released fe P k.
Proof.
  rewrite list_elem_of_fmap. setoid_rewrite elem_of_recidivism_labels. split.
  - intros (r & -> & k' & Hrel & [(_ & _ & ->)|(_ & ->)]); done.
  - intros Hrel.
    destruct (decide (k = VNull)) as [Hn|Hn].
    { exists [k; VInt 0]. split; [done|]. exists k. split; [done|]. right. tauto. }
    destruct (decide (Exists (λ r, cell r 0 = k ∧ cell r 1 = VInt 1 ∧
                holds (between ps pe (cell r 2)) = true) P)) as [He|He].
    + exists [k; VInt 1]. split; [done|]. exists k. split; [done|]. left.
      split; [done|]. split; [|done].
      apply Exists_exists in He as (r & Hr & ? & ? & Hw%holds_between).
      by exists r.
    + exists [k; VInt 0]. split; [done|]. exists k. split; [done|]. right.
      split; [|done]. intros [_ (r & Hr & ? & ? & Hw%holds_between)].
      apply He, Exists_exists. by exists r.
Qed.

Lemma recidivism_labels_relevant fe ps pe P :
  recidivism_labels fe ps pe (filter (λ r, relevant fe ps pe r) P)
    = recidivism_labels fe ps pe P.
Proof.
  unfold recidivism_labels, recidivism, last_exit, release_dates, admit_table,
    release_dates_rows, admit_rows. cbn [rows].
  rewrite !list_filter_filter_l; [done|..]; intros r Hr; unfold relevant;
    apply Is_true_true in Hr; apply Is_true_true; rewrite Hr; by rewrite ?orb_true_r.
Qed.

Lemma string_of_uint_no_underscore d :
  has_char "_" (NilEmpty.string_of_uint d) = false.
Proof. induction d; simpl; done. Qed.

Lemma format_int_no_underscore z : has_char "_" (format_int z) = false.
Proof.
  unfold format_int, NilEmpty.string_of_int.
  destruct (Z.to_int z); simpl; apply string_of_uint_no_underscore.
Qed.

Lemma format_int_inj z z' : format_int z = format_int z' → z = z'.
Proof.
  unfold format_int. intros H.
  assert (Z.to_int z = Z.to_int z') as Hint.
  { apply (f_equal NilEmpty.int_of_string) in H. rewrite !NilEmpty.isi in H. congruence. }
  apply (f_equal Z.of_int) in Hint. by rewrite !DecimalZ.of_to in Hint.
Qed.

Lemma app_underscore_inj a a' b b' :
  has_char "_" a = false → has_char "_" a' = false →
  a +:+ String "_" b = a' +:+ String "_" b' → a = a' ∧ b = b'.
Proof.
  revert a'. induction a as [|c a IH]; intros [|c' a']; cbn [has_char String.append].
  - by intros _ _ [= ->].
  - intros _ H [= <- _]. by rewrite Ascii.eqb_refl in H.
  - intros H _ [= -> _]. by rewrite Ascii.eqb_refl in H.
  - destruct (Ascii.eqb "_" c) eqn:Hc; [by intros [=]|].
    destruct (Ascii.eqb "_" c') eqn:Hc'; [by intros _ [=]|].
    intros Ha Ha' [= -> Heq]. destruct (IH a' Ha Ha' Heq) as [-> ->]. done.
Qed.

(** The name of a label table determines the two years. *)
Lemma recidivism_labels_name_inj s e s' e' :
  recidivism_labels_name s e = recidivism_labels_name s' e' → s = s' ∧ e = e'.
Proof.
  unfold recidivism_labels_name. intros H. simpl in H.
  injection H as H.
  apply app_underscore_inj in H as [Hs He]; try apply format_int_no_underscore.
  split; by apply format_int_inj.
Qed.

Lemma persistent_rebuild_Temp_fresh c n t w :
  temporary w !! (c, n) = None →
  persistent (rebuild Temp c n t w) !! (conn_db c, n) = None.
Proof.
  intros H. unfold rebuild, drop_table_if_exists. rewrite H. simpl.
  by rewrite lookup_delete_eq.
Qed.

Lemma temporary_close c w c' n :
  temporary (close c w) !! (c', n) = if decide (c' = c) then None else temporary w !! (c', n).
Proof.
  unfold close. simpl. case_decide as Hc.
  - apply map_lookup_filter_None. right. intros t _. simpl. by intros [].
  - destruct (temporary w !! (c', n)) as [t|] eqn:Ht.
    + by apply map_lookup_filter_Some.
    + apply map_lookup_filter_None. by left.
Qed.

Lemma final_world_persistent_temp_names cur fe ps pe x s e P w n :
  n ∈ [release_dates_name x; last_exit_name x; admit_name s e; recidivism_name s e] →
  temporary w !! (cur, n) = None →
  persistent (final_world cur fe ps pe x s e P w) !! (conn_db cur, n) = None.
Proof.
  intros Hn Hfresh. unfold final_world.
  repeat (apply elem_of_cons in Hn as [->|Hn]); [..|by apply elem_of_nil in Hn];
    rewrite ?persistent_rebuild_ne by name_ne;
    apply persistent_rebuild_Temp_fresh;
    rewrite ?temporary_rebuild_ne by name_ne; done.
Qed.

Lemma label_2009_2013_create_labels date conn w :
  label_2009_2013 date conn w
    = create_labels date iso_parse conn "2008-12-31" "2009-01-01" "2013-12-31" conn w.
Proof. reflexivity. Qed.

Lemma create_labels_run date parse cur fe ps pe px py pz P w :
  parse fe = Some px → parse ps = Some py → parse pe = Some pz →
  prepared date cur w P →
  ¬ clash cur "sentences_prep" w →
  ¬ clash cur (recidivism_labels_name (year py) (year pz)) w →
  create_labels date parse cur fe ps pe cur w
    = (final_world cur fe ps pe (year px) (year py) (year pz) P w,
       Return (recidivism_labels fe ps pe P)).
Proof.
  intros Hx Hy Hz HP Hc1 Hc2. apply create_labels_Return.
  exists px, py, pz, P. repeat (split; [done|]).
  apply read_sql_recidivism_labels; auto.
Qed.

Ltac not_script_name :=
  unfold script_names; rewrite !not_elem_of_cons;
  repeat split; try apply not_elem_of_nil; name_ne.






Section Extra.
Variable date : value → option string.
Variable parse : string → option datetime.
Variable cur : connection.

(** X1.  The cells that build the labels of 2009-2013 do what the function does
    when called with the dates of the cells, provided the parser reads the
    years 2008, 2009 and 2013 from them. *)
Theorem cells_are_create_labels w px py pz :
  parse "2008-12-31" = Some px → year px = 2008 →
  parse "2009-01-01" = Some py → year py = 2009 →
  parse "2013-12-31" = Some pz → year pz = 2013 →
  label_2009_2013 date cur w
    = create_labels date parse cur "2008-12-31" "2009-01-01" "2013-12-31" cur w.
Proof.
  intros Hx Hx' Hy Hy' Hz Hz'. unfold create_labels, label_2009_2013.
  rewrite Hx, Hy, Hz, Hx', Hy', Hz'. reflexivity.
Qed.

(** X2.  Whatever its outcome, a call whose arguments hold no quote changes
    no table but the six it names: in particular every connection sees
    [sentences] as before. *)
Theorem create_labels_changes_its_tables_only fe ps pe conn w :
  text_literals fe ps pe →
  (∀ c, find_table c (create_labels date parse cur fe ps pe conn w).1 "sentences"
        = find_table c w "sentences") ∧
  (∀ px py pz n,
     parse fe = Some px → parse ps = Some py → parse pe = Some pz →
     n ∉ script_names (year px) (year py) (year pz) →
     (∀ c, temporary (create_labels date parse cur fe ps pe conn w).1 !! (c, n)
           = temporary w !! (c, n)) ∧
     (∀ db, persistent (create_labels date parse cur fe ps pe conn w).1 !! (db, n)
            = persistent w !! (db, n))).
Proof.
  intros _. rewrite create_labels_world. split.
  - intros c. destruct (parse fe) as [px|]; [|done]. destruct (parse ps) as [py|]; [|done].
    destruct (parse pe) as [pz|]; [|done]. unfold find_table.
    destruct (executescript_frame_name cur
                (sql_script date fe ps pe (year px) (year py) (year pz)) w "sentences")
      as [Ht Hp]; [|by rewrite Ht, Hp].
    rewrite stmt_names_sql_script. unfold script_names.
    rewrite !not_elem_of_cons. repeat split; try apply not_elem_of_nil; name_ne.
  - intros px py pz n -> -> -> Hn. apply executescript_frame_name.
    by rewrite stmt_names_sql_script.
Qed.

(** X3.  Read through the connection of the cursor itself, the label table is
    always found: a call with [conn] the cursor's connection and arguments
    that hold no quote raises the parser's error or the store's, never the
    error of the final read. *)
Theorem read_on_cursor_never_fails fe ps pe w e :
  text_literals fe ps pe →
  (create_labels date parse cur fe ps pe cur w).2 ≠ Raise (DatabaseError e).
Proof.
  intros _. unfold create_labels.
  destruct (parse fe) as [px|]; [|done]. destruct (parse ps) as [py|]; [|done].
  destruct (parse pe) as [pz|]; [|done].
  destruct (executescript _ _ _) as [w1 [err|]] eqn:Hrun; [done|].
  destruct (prepared_dec date cur w) as [[P (S & HS & HT)]|Hno].
  2:{ destruct (executescript_sql_script_Err date cur fe ps pe
                  (year px) (year py) (year pz) w Hno) as (? & ? & Herr). congruence. }
  rewrite (executescript_sql_script date cur _ _ _ _ _ _ _ S P HS HT) in Hrun.
  repeat case_bool_decide; try done. injection Hrun as <-.
  by rewrite read_sql_recidivism_labels by auto.
Qed.

(** X4.  Without a visible [sentences] table the call raises the store's
    "no such table", and the [sentences_prep] of an earlier run is lost:
    the [drop] that precedes the failing statement has run. *)
Theorem missing_sentences_drops_sentences_prep fe ps pe conn w px py pz :
  parse fe = Some px → parse ps = Some py → parse pe = Some pz →
  find_table cur w "sentences" = None →
  ¬ clash cur "sentences_prep" w →
  create_labels date parse cur fe ps pe conn w
    = (drop_table_if_exists cur "sentences_prep" w,
       Raise (OperationalError (no_such_table "sentences"))) ∧
  find_table cur (drop_table_if_exists cur "sentences_prep" w) "sentences_prep" = None.
Proof.
  intros Hx Hy Hz HS Hc. split.
  - unfold create_labels. rewrite Hx, Hy, Hz. unfold sql_script.
    rewrite executescript_rebuild. cbv zeta. rewrite has_table_Main_drop.
    rewrite bool_decide_eq_false_2 by done.
    unfold from. rewrite find_table_drop_ne by name_ne. by rewrite HS.
  - unfold find_table, drop_table_if_exists.
    destruct (temporary w !! (cur, "sentences_prep")) as [t|] eqn:Ht; simpl.
    + rewrite lookup_delete_eq.
      destruct (persistent w !! (conn_db cur, "sentences_prep")) eqn:Hp; [|done].
      destruct Hc. split; eauto.
    + by rewrite Ht, lookup_delete_eq.
Qed.

(** X5.  On arguments that hold no quote, the returned table has the two
    columns of the label table, and each of its rows is an identifier with
    the label 0 or the label 1. *)
Theorem labels_are_binary fe ps pe w w' df :
  text_literals fe ps pe →
  create_labels date parse cur fe ps pe cur w = (w', Return df) →
  columns df = ["inmate_doc_number"; "recidivism"] ∧
  ∀ r, r ∈ rows df → ∃ k, r = [k; VInt 0] ∨ r = [k; VInt 1].
Proof.
  intros _ Hrun.
  destruct (proj1 (create_labels_Return _ _ _ _ _ _ _ _ _ _) Hrun)
    as (_ & _ & _ & P & _ & _ & _ & HP & _).
  rewrite (create_labels_cur _ _ _ _ _ _ _ _ _ _ HP Hrun). split; [done|].
  intros r (k & _ & [(_ & _ & ->)|(_ & ->)])%elem_of_recidivism_labels; eauto.
Qed.

(** X6.  On arguments that hold no quote, every labelled identifier is the
    identifier of a row of [sentences]; an empty [sentences] gives an empty
    label table. *)
Theorem labelled_identifiers_come_from_sentences fe ps pe w w' df S i :
  text_literals fe ps pe →
  find_table cur w "sentences" = Some S →
  column S "inmate_doc_number" = Ok i →
  create_labels date parse cur fe ps pe cur w = (w', Return df) →
  (∀ k, k ∈ (λ r, cell r 0) <$> rows df → ∃ r, r ∈ rows S ∧ cell r i = k) ∧
  (rows S = [] → rows df = []).
Proof.
  intros _ HS Hi Hrun.
  destruct (proj1 (create_labels_Return _ _ _ _ _ _ _ _ _ _) Hrun)
    as (_ & _ & _ & P & _ & _ & _ & HP & _).
  pose proof HP as (S' & HS' & HT). rewrite HS in HS'. injection HS' as <-.
  destruct (select_sentences_prep_Ok _ _ _ HT) as (i' & c & b & e & Hi' & _ & _ & _ & HPeq).
  rewrite Hi in Hi'. injection Hi' as <-. injection HPeq as ->.
  assert (∀ k, k ∈ (λ r, cell r 0) <$> rows df → ∃ r, r ∈ rows S ∧ cell r i = k) as Hids.
  { intros k Hk.
    rewrite (create_labels_cur _ _ _ _ _ _ _ _ _ _ HP Hrun) in Hk.
    apply labelled_iff_released in Hk
      as (r & (r0 & -> & Hr0)%list_elem_of_fmap & <- & _).
    by exists r0. }
  split; [done|]. intros Hnil. destruct (rows df) as [|r l] eqn:Hdf; [done|].
  destruct (Hids (cell r 0)) as (r0 & Hr0 & _); [left|].
  rewrite Hnil in Hr0. by apply elem_of_nil in Hr0.
Qed.

(** X7.  Rows with a NULL identifier form one group that never joins: when it
    has a release in the historical window, the returned table holds the
    row (NULL, 0) for it and no other, whatever admissions carry NULL (the
    arguments holding no quote). *)
Theorem null_identifier_labelled_0 fe ps pe w w' df P :
  text_literals fe ps pe →
  prepared date cur w P →
  create_labels date parse cur fe ps pe cur w = (w', Return df) →
  released fe P VNull →
  ∀ r, r ∈ rows df ∧ cell r 0 = VNull ↔ r = [VNull; VInt 0].
Proof.
  intros _ HP Hrun Hrel r. rewrite (create_labels_cur _ _ _ _ _ _ _ _ _ _ HP Hrun).
  rewrite elem_of_recidivism_labels. split.
  - intros [(k & _ & [(Hk & _ & ->)|(_ & ->)]) Hnull];
      change (k = VNull) in Hnull; subst; [by destruct Hk | done].
  - intros ->. split; [|done]. exists VNull. split; [done|]. right.
    split; [|done]. by intros [? _].
Qed.

(** X8.  A later end of the historical window labels every individual that an
    earlier one labels, the arguments of the two calls holding no quote and
    the two ends being compared as the store compares texts. *)
Theorem population_grows_with_features_end fe fe' ps pe ps' pe' w w1 df1 w0 w2 df2 P k :
  text_literals fe ps pe → text_literals fe' ps' pe' →
  prepared date cur w P →
  create_labels date parse cur fe ps pe cur w = (w1, Return df1) →
  prepared date cur w0 P →
  create_labels date parse cur fe' ps' pe' cur w0 = (w2, Return df2) →
  String.leb fe fe' = true →
  k ∈ (λ r, cell r 0) <$> rows df1 → k ∈ (λ r, cell r 0) <$> rows df2.
Proof.
  intros _ _ HP H1 HP0 H2 Hle.
  rewrite (create_labels_cur _ _ _ _ _ _ _ _ _ _ HP H1).
  rewrite (create_labels_cur _ _ _ _ _ _ _ _ _ _ HP0 H2).
  rewrite !labelled_iff_released. intros (r & Hr & Hid & s & Hs & Hlo & Hhi).
  exists r. do 2 (split; [done|]). exists s. do 2 (split; [done|]).
  by apply (string_leb_trans _ fe).
Qed.

(** X9.  With the same historical window, a wider prediction window keeps every
    label 1, the arguments of the two calls holding no quote and the bounds
    being compared as the store compares texts. *)
Theorem label_1_kept_by_wider_window fe ps pe ps' pe' w w1 df1 w0 w2 df2 P k :
  text_literals fe ps pe → text_literals fe ps' pe' →
  prepared date cur w P →
  create_labels date parse cur fe ps pe cur w = (w1, Return df1) →
  prepared date cur w0 P →
  create_labels date parse cur fe ps' pe' cur w0 = (w2, Return df2) →
  String.leb ps' ps = true → String.leb pe pe' = true →
  [k; VInt 1] ∈ rows df1 → [k; VInt 1] ∈ rows df2.
Proof.
  intros _ _ HP H1 HP0 H2 Hs He.
  rewrite (create_labels_cur _ _ _ _ _ _ _ _ _ _ HP H1).
  rewrite (create_labels_cur _ _ _ _ _ _ _ _ _ _ HP0 H2).
  rewrite !elem_of_recidivism_labels.
  intros (k' & Hrel & [(Hn & Hre & [= <-])|(_ & [=])]).
  exists k. split; [done|]. left. split; [done|]. split; [|done].
  destruct Hre as (r & Hr & Hid & Hc & s & Hbs & Hlo & Hhi).
  exists r. do 3 (split; [done|]). exists s. split; [done|].
  split; [by apply (string_leb_trans _ ps) | by apply (string_leb_trans _ pe)].
Qed.

(** X10.  Rows of [sentences_prep] that pass neither [where] clause, such as
    rows whose two dates are NULL, have no effect: without them the call
    returns the same table (the arguments holding no quote, so that the
    two clauses are those of [relevant]). *)
Theorem irrelevant_rows_ignored fe ps pe w1 w1' df1 w2 w2' df2 P :
  text_literals fe ps pe →
  prepared date cur w1 P →
  create_labels date parse cur fe ps pe cur w1 = (w1', Return df1) →
  prepared date cur w2 (filter (λ r, relevant fe ps pe r) P) →
  create_labels date parse cur fe ps pe cur w2 = (w2', Return df2) →
  (∀ r, cell r 2 = VNull → cell r 3 = VNull → relevant fe ps pe r = false) ∧
  df1 = df2.
Proof.
  intros _ HP1 H1 HP2 H2. split.
  - intros r Hb He. unfold relevant. rewrite Hb, He.
    by destruct (sql_eq (cell r 1) (VInt 1)) as [[]|].
  - rewrite (create_labels_cur _ _ _ _ _ _ _ _ _ _ HP1 H1).
    rewrite (create_labels_cur _ _ _ _ _ _ _ _ _ _ HP2 H2).
    by rewrite recidivism_labels_relevant.
Qed.

(** X11.  The label tables are named after the years of the prediction window
    alone.  A call whose arguments hold no quote leaves the label table of
    every other pair of years as it is, whatever its own outcome. *)
Theorem other_label_tables_kept fe ps pe conn w px py pz s e :
  text_literals fe ps pe →
  parse fe = Some px → parse ps = Some py → parse pe = Some pz →
  (s, e) ≠ (year py, year pz) →
  ∀ db, persistent (create_labels date parse cur fe ps pe conn w).1
          !! (db, recidivism_labels_name s e)
        = persistent w !! (db, recidivism_labels_name s e).
Proof.
  intros _ Hx Hy Hz Hne db. rewrite create_labels_world, Hx, Hy, Hz.
  apply executescript_frame_name. rewrite stmt_names_sql_script.
  unfold script_names. rewrite !not_elem_of_cons.
  repeat split; try apply not_elem_of_nil; try name_ne.
  intros [-> ->]%recidivism_labels_name_inj. done.
Qed.

(** X12.  The whole notebook on a connection that has just been opened, with
    [sentences] in place: it returns the labels of 2009-2013 and of
    2014-2018; after the two [close] the database holds [sentences_prep]
    and the two label tables, none of the eight intermediate tables, and
    the connection has no temporary table left; every other table is as it
    was. *)
Theorem notebook_leaves_three_tables w P px py pz :
  fresh cur w → prepared date cur w P →
  parse "2013-12-31" = Some px → year px = 2013 →
  parse "2014-01-01" = Some py → year py = 2014 →
  parse "2018-12-31" = Some pz → year pz = 2018 →
  ∃ w',
    notebook date parse cur w
      = (w', Return (recidivism_labels "2008-12-31" "2009-01-01" "2013-12-31" P,
                     recidivism_labels "2013-12-31" "2014-01-01" "2018-12-31" P)) ∧
    persistent w' !! (conn_db cur, "sentences_prep") = Some (sentences_prep P) ∧
    persistent w' !! (conn_db cur, "recidivism_labels_2009_2013")
      = Some (recidivism_labels "2008-12-31" "2009-01-01" "2013-12-31" P) ∧
    persistent w' !! (conn_db cur, "recidivism_labels_2014_2018")
      = Some (recidivism_labels "2013-12-31" "2014-01-01" "2018-12-31" P) ∧
    (∀ n, n ∈ notebook_temporaries → persistent w' !! (conn_db cur, n) = None) ∧
    (∀ n, temporary w' !! (cur, n) = None) ∧
    (∀ db n, db ≠ conn_db cur ∨ n ∉ (notebook_tables ++ notebook_temporaries)%list →
             persistent w' !! (db, n) = persistent w !! (db, n)).
Proof.
  intros Hfresh HP Hx Hx' Hy Hy' Hz Hz'.
  set (w1 := final_world cur "2008-12-31" "2009-01-01" "2013-12-31" 2008 2009 2013 P w).
  set (w2 := final_world cur "2013-12-31" "2014-01-01" "2018-12-31" 2013 2014 2018 P w1).
  assert (∀ n, ¬ clash cur n w) as Hnc.
  { intros n [[t Ht] _]. by rewrite Hfresh in Ht. }
  assert (label_2009_2013 date cur w
          = (w1, Return (recidivism_labels "2008-12-31" "2009-01-01" "2013-12-31" P)))
    as H1.
  { rewrite label_2009_2013_create_labels.
    by apply (create_labels_run date iso_parse cur _ _ _
                (Datetime 2008 12 31) (Datetime 2009 1 1) (Datetime 2013 12 31)). }
  assert (create_labels date parse cur "2013-12-31" "2014-01-01" "2018-12-31" cur w1
          = (w2, Return (recidivism_labels "2013-12-31" "2014-01-01" "2018-12-31" P)))
    as H2.
  { unfold w2. rewrite <- Hx', <- Hy', <- Hz'.
    apply create_labels_run; try done.
    - destruct HP as (S & HS & HT). exists S. split; [|done].
      unfold w1. by rewrite final_world_sentences.
    - apply final_world_clash. set_solver.
    - rewrite Hy', Hz'. intros [[t Ht] _]. unfold w1 in Ht.
      rewrite final_world_temporary_frame, Hfresh in Ht; [done|].
      right. not_script_name. }
  exists (close cur w2). unfold notebook. rewrite H1, H2.
  split; [done|]. cbn [close persistent].
  split; [apply final_world_sentences_prep|].
  split.
  { unfold w2. rewrite final_world_persistent_frame by (right; not_script_name).
    apply (final_world_recidivism_labels cur _ _ _ 2008 2009 2013). }
  split; [apply (final_world_recidivism_labels cur _ _ _ 2013 2014 2018)|].
  split; [|split].
  - intros n Hn. unfold notebook_temporaries in Hn.
    do 4 (apply elem_of_cons in Hn as [->|Hn];
          [ unfold w2; rewrite final_world_persistent_frame by (right; not_script_name);
            apply (final_world_persistent_temp_names cur _ _ _ 2008 2009 2013);
            [set_solver | apply Hfresh] |]).
    apply (final_world_persistent_temp_names cur _ _ _ 2013 2014 2018); [exact Hn|].
    unfold w1. rewrite final_world_temporary_frame; [apply Hfresh|].
    right. repeat (apply elem_of_cons in Hn as [->|Hn]);
      [..|by apply elem_of_nil in Hn]; not_script_name.
  - intros n. rewrite temporary_close. by rewrite decide_True.
  - intros db n Hn. unfold w2, w1.
    rewrite !final_world_persistent_frame; [done|..];
      (destruct Hn as [Hn|Hn]; [by left|right]);
      intros Hin; apply Hn; unfold notebook_tables, notebook_temporaries;
      vm_compute in Hin; set_solver.
Qed.


(** X14.  On a connection that has just been opened nothing can be taken twice:
    a call whose arguments hold no quote returns exactly when the three
    arguments parse and [sentences] is visible with its four columns. *)
Theorem returns_iff_on_fresh_connection fe ps pe w :
  text_literals fe ps pe →
  fresh cur w →
  (∃ w' df, create_labels date parse cur fe ps pe cur w = (w', Return df)) ↔
  (is_Some (parse fe) ∧ is_Some (parse ps) ∧ is_Some (parse pe) ∧
   ∃ S, find_table cur w "sentences" = Some S ∧
        is_Some (index_of "inmate_doc_number" (columns S)) ∧
        is_Some (index_of "inmate_sentence_component" (columns S)) ∧
        is_Some (index_of "sentence_begin_date_(for_max)" (columns S)) ∧
        is_Some (index_of "actual_sentence_end_date" (columns S))).
Proof.
  intros _ Hfresh. split.
  - intros (w' & df & (px & py & pz & P & Hx & Hy & Hz & (S & HS & HT) & _)%create_labels_Return).
    rewrite Hx, Hy, Hz. do 3 (split; [eauto|]). exists S. split; [done|].
    destruct (select_sentences_prep_Ok _ _ _ HT) as (i & c & b & e & Hi & Hc & Hb & He & _).
    unfold column in *.
    repeat match goal with
           | H : match index_of ?n ?l with _ => _ end = Ok _ |- _ =>
               destruct (index_of n l); [|done]
           end.
    eauto.
  - intros ([px Hx] & [py Hy] & [pz Hz] & S & HS & [i Hi] & [c Hc] & [b Hb] & [e He]).
    eexists _, _. apply (create_labels_run _ _ _ _ _ _ px py pz); try done.
    + exists S. split; [done|]. unfold select_sentences_prep, column.
      rewrite Hi, Hc, Hb, He. done.
    + intros [[t Ht] _]. by rewrite Hfresh in Ht.
    + intros [[t Ht] _]. by rewrite Hfresh in Ht.
Qed.

(** X15.  A [sentences] table without one of the four source columns makes the
    call raise the store's "no such column" for one of them. *)
Theorem missing_column_raises fe ps pe conn w px py pz S :
  parse fe = Some px → parse ps = Some py → parse pe = Some pz →
  find_table cur w "sentences" = Some S →
  ¬ clash cur "sentences_prep" w →
  (∃ c, c ∈ sentences_columns ∧ index_of c (columns S) = None) →
  ∃ c, c ∈ sentences_columns ∧
       create_labels date parse cur fe ps pe conn w
         = (drop_table_if_exists cur "sentences_prep" w,
            Raise (OperationalError (no_such_column c))).
Proof.
  intros Hx Hy Hz HS Hc (c & Hin & Hnone).
  assert (∃ c', c' ∈ sentences_columns ∧
                select_sentences_prep date S = Err (no_such_column c')) as (c' & Hin' & HT).
  { unfold select_sentences_prep, column, sentences_columns in *.
    destruct (index_of "inmate_doc_number" (columns S)) eqn:H1;
      [|exists "inmate_doc_number"; split; [set_solver|done]].
    destruct (index_of "inmate_sentence_component" (columns S)) eqn:H2;
      [|exists "inmate_sentence_component"; split; [set_solver|done]].
    destruct (index_of "sentence_begin_date_(for_max)" (columns S)) eqn:H3;
      [|exists "sentence_begin_date_(for_max)"; split; [set_solver|done]].
    destruct (index_of "actual_sentence_end_date" (columns S)) eqn:H4;
      [|exists "actual_sentence_end_date"; split; [set_solver|done]].
    repeat (apply elem_of_cons in Hin as [->|Hin]); try congruence.
    by apply elem_of_nil in Hin. }
  exists c'. split; [done|].
  unfold create_labels. rewrite Hx, Hy, Hz. unfold sql_script.
  rewrite executescript_rebuild. cbv zeta. rewrite has_table_Main_drop.
  rewrite bool_decide_eq_false_2 by done.
  unfold from. rewrite find_table_drop_ne by name_ne. rewrite HS.
  cbn [mbind result_bind]. by rewrite HT.
Qed.

(** X16.  A temporary table of [conn] with the name of the label table hides it:
    a second connection on the same database that has one gets its own
    table back, not the labels. *)
Theorem temporary_table_hides_labels fe ps pe conn w w' df :
  conn ≠ cur →
  create_labels date parse cur fe ps pe conn w = (w', Return df) →
  ∃ py pz, parse ps = Some py ∧ parse pe = Some pz ∧
    ∀ t, temporary w !! (conn, recidivism_labels_name (year py) (year pz)) = Some t →
         df = t.
Proof.
  intros Hne (px & py & pz & P & _ & Hy & Hz & _ & _ & _ & -> & Hr)%create_labels_Return.
  exists py, pz. do 2 (split; [done|]). intros t Ht.
  unfold read_sql, from, find_table in Hr.
  rewrite final_world_temporary_frame, Ht in Hr by auto. congruence.
Qed.

End Extra.

(** ** The further properties at the examples *)

Lemma later_run :
  later_call boundary_world = ((later_call boundary_world).1, Return later_df).
Proof. by vm_compute. Qed.

Lemma later_literals : text_literals "2013-12-31" "2014-01-01" "2018-12-31".
Proof. by vm_compute. Qed.

Lemma wider_literals : text_literals "2008-12-31" "2009-01-01" "2018-12-31".
Proof. by vm_compute. Qed.

Lemma wider_run :
  wider_call boundary_world = ((wider_call boundary_world).1, Return boundary_df).
Proof. by vm_compute. Qed.

Lemma trimmed_prepared :
  prepared iso_date notebook_conn trimmed_world
    (filter (λ r, relevant "2008-12-31" "2009-01-01" "2013-12-31" r) boundary_prep).
Proof. exists trimmed_sentences. split; by vm_compute. Qed.

Lemma trimmed_run :
  scenario_call notebook_conn trimmed_world
    = ((scenario_call notebook_conn trimmed_world).1, Return boundary_df).
Proof. by vm_compute. Qed.

Lemma shadow_run :
  scenario_call second_conn shadow_world
    = ((scenario_call second_conn shadow_world).1, Return (sentences_prep [])).
Proof. by vm_compute. Qed.

Lemma cells_are_create_labels_witness :
  label_2009_2013 iso_date notebook_conn scenario_world
    = scenario_call notebook_conn scenario_world.
Proof.
  apply (cells_are_create_labels iso_date iso_parse notebook_conn scenario_world
           (Datetime 2008 12 31) (Datetime 2009 1 1) (Datetime 2013 12 31));
    reflexivity.
Defined.

Lemma create_labels_changes_its_tables_only_witness :
  find_table second_conn (scenario_call notebook_conn stale_world).1 "sentences"
    = find_table second_conn stale_world "sentences" ∧
  persistent (scenario_call notebook_conn stale_world).1 !! ("ncdoc.db", "keep_me")
    = persistent stale_world !! ("ncdoc.db", "keep_me").
Proof.
  destruct (create_labels_changes_its_tables_only iso_date iso_parse notebook_conn
              "2008-12-31" "2009-01-01" "2013-12-31" notebook_conn stale_world
              scenario_literals)
    as [Hs Hn].
  split; [apply Hs|].
  apply (Hn (Datetime 2008 12 31) (Datetime 2009 1 1) (Datetime 2013 12 31) "keep_me");
    try reflexivity.
  not_script_name.
Defined.

Lemma read_on_cursor_never_fails_witness :
  (scenario_call notebook_conn scenario_world).2 = Return scenario_df ∧
  (scenario_call notebook_conn scenario_world).2
    ≠ Raise (DatabaseError (no_such_table "recidivism_labels_2009_2013")).
Proof.
  split; [by rewrite scenario_run|].
  exact (read_on_cursor_never_fails iso_date iso_parse notebook_conn
           "2008-12-31" "2009-01-01" "2013-12-31" scenario_world
           (no_such_table "recidivism_labels_2009_2013") scenario_literals).
Defined.

Lemma missing_sentences_drops_sentences_prep_witness :
  scenario_call notebook_conn orphan_world
    = (drop_table_if_exists notebook_conn "sentences_prep" orphan_world,
       Raise (OperationalError (no_such_table "sentences"))) ∧
  find_table notebook_conn
    (drop_table_if_exists notebook_conn "sentences_prep" orphan_world) "sentences_prep"
    = None.
Proof.
  apply (missing_sentences_drops_sentences_prep iso_date iso_parse notebook_conn
           "2008-12-31" "2009-01-01" "2013-12-31" notebook_conn orphan_world
           (Datetime 2008 12 31) (Datetime 2009 1 1) (Datetime 2013 12 31));
    try reflexivity.
  by intros [[? ?] _].
Defined.

Lemma labels_are_binary_witness :
  columns scenario_df = ["inmate_doc_number"; "recidivism"] ∧
  ∀ r, r ∈ rows scenario_df → ∃ k, r = [k; VInt 0] ∨ r = [k; VInt 1].
Proof.
  exact (labels_are_binary iso_date iso_parse notebook_conn
           "2008-12-31" "2009-01-01" "2013-12-31" scenario_world scenario_final
           scenario_df scenario_literals scenario_run).
Defined.

Lemma labelled_identifiers_come_from_sentences_witness :
  (∀ k, k ∈ (λ r, cell r 0) <$> rows scenario_df →
        ∃ r, r ∈ rows scenario_sentences ∧ cell r 0 = k) ∧
  (rows scenario_sentences = [] → rows scenario_df = []).
Proof.
  apply (labelled_identifiers_come_from_sentences iso_date iso_parse notebook_conn
           "2008-12-31" "2009-01-01" "2013-12-31" scenario_world scenario_final
           scenario_df scenario_sentences 0%nat scenario_literals);
    [reflexivity | reflexivity |].
  exact scenario_run.
Defined.

Lemma null_identifier_labelled_0_witness :
  [VNull; VInt 0] ∈ rows null_df ∧ ([VNull; VInt 1] ∉ rows null_df).
Proof.
  assert (released "2008-12-31" null_prep VNull) as Hrel.
  { exists [VNull; VInt 1; VText "2009-03-01"; VText "2005-06-01"].
    split; [left|]. split; [done|]. by exists "2005-06-01". }
  pose proof (null_identifier_labelled_0 iso_date iso_parse notebook_conn
           "2008-12-31" "2009-01-01" "2013-12-31" null_world
           (scenario_call notebook_conn null_world).1 null_df null_prep
           scenario_literals null_prepared null_run Hrel) as H.
  split.
  - by apply (H [VNull; VInt 0]).
  - intros Hin. by assert ([VNull; VInt 1] = [VNull; VInt 0]) by (apply H; done).
Defined.

Lemma population_grows_with_features_end_witness :
  VInt 3 ∈ (λ r, cell r 0) <$> rows later_df.
Proof.
  apply (population_grows_with_features_end iso_date iso_parse notebook_conn
           "2008-12-31" "2013-12-31" "2009-01-01" "2013-12-31" "2014-01-01" "2018-12-31"
           boundary_world boundary_final boundary_df
           boundary_world (later_call boundary_world).1 later_df
           boundary_prep (VInt 3) scenario_literals later_literals
           boundary_prepared boundary_run boundary_prepared later_run).
  - reflexivity.
  - vm_compute. left.
Defined.

Lemma label_1_kept_by_wider_window_witness :
  [VInt 6; VInt 1] ∈ rows boundary_df.
Proof.
  apply (label_1_kept_by_wider_window iso_date iso_parse notebook_conn
           "2008-12-31" "2009-01-01" "2013-12-31" "2009-01-01" "2018-12-31"
           boundary_world boundary_final boundary_df
           boundary_world (wider_call boundary_world).1 boundary_df
           boundary_prep (VInt 6) scenario_literals wider_literals
           boundary_prepared boundary_run boundary_prepared wider_run).
  - reflexivity.
  - reflexivity.
  - vm_compute. right. left.
Defined.

Lemma irrelevant_rows_ignored_witness :
  (∀ r, cell r 2 = VNull → cell r 3 = VNull →
        relevant "2008-12-31" "2009-01-01" "2013-12-31" r = false) ∧
  boundary_df = boundary_df.
Proof.
  exact (irrelevant_rows_ignored iso_date iso_parse notebook_conn
           "2008-12-31" "2009-01-01" "2013-12-31"
           boundary_world boundary_final boundary_df
           trimmed_world (scenario_call notebook_conn trimmed_world).1 boundary_df
           boundary_prep scenario_literals
           boundary_prepared boundary_run trimmed_prepared trimmed_run).
Defined.

Lemma other_label_tables_kept_witness :
  persistent (scenario_call notebook_conn stale_world).1
    !! ("ncdoc.db", recidivism_labels_name 2014 2018)
  = persistent stale_world !! ("ncdoc.db", recidivism_labels_name 2014 2018).
Proof.
  apply (other_label_tables_kept iso_date iso_parse notebook_conn
           "2008-12-31" "2009-01-01" "2013-12-31" notebook_conn stale_world
           (Datetime 2008 12 31) (Datetime 2009 1 1) (Datetime 2013 12 31) 2014 2018
           scenario_literals);
    try reflexivity.
  by intros [=].
Defined.

Lemma notebook_leaves_three_tables_witness :
  recidivism_labels "2008-12-31" "2009-01-01" "2013-12-31" boundary_prep = boundary_df ∧
  recidivism_labels "2013-12-31" "2014-01-01" "2018-12-31" boundary_prep = later_df ∧
  ∃ w',
    notebook iso_date iso_parse notebook_conn boundary_world
      = (w', Return (recidivism_labels "2008-12-31" "2009-01-01" "2013-12-31" boundary_prep,
                     recidivism_labels "2013-12-31" "2014-01-01" "2018-12-31" boundary_prep)) ∧
    persistent w' !! ("ncdoc.db", "sentences_prep") = Some (sentences_prep boundary_prep) ∧
    persistent w' !! ("ncdoc.db", "recidivism_labels_2009_2013")
      = Some (recidivism_labels "2008-12-31" "2009-01-01" "2013-12-31" boundary_prep) ∧
    persistent w' !! ("ncdoc.db", "recidivism_labels_2014_2018")
      = Some (recidivism_labels "2013-12-31" "2014-01-01" "2018-12-31" boundary_prep) ∧
    (∀ n, n ∈ notebook_temporaries → persistent w' !! ("ncdoc.db", n) = None) ∧
    (∀ n, temporary w' !! (notebook_conn, n) = None) ∧
    (∀ db n, db ≠ "ncdoc.db" ∨ n ∉ (notebook_tables ++ notebook_temporaries)%list →
             persistent w' !! (db, n) = persistent boundary_world !! (db, n)).
Proof.
  split; [by vm_compute|]. split; [by vm_compute|].
  apply (notebook_leaves_three_tables iso_date iso_parse notebook_conn boundary_world
           boundary_prep (Datetime 2013 12 31) (Datetime 2014 1 1) (Datetime 2018 12 31));
    try reflexivity.
  - intros n. apply lookup_empty.
  - exact boundary_prepared.
Defined.

Lemma returns_iff_on_fresh_connection_witness :
  ∃ w' df, scenario_call notebook_conn scenario_world = (w', Return df).
Proof.
  apply (returns_iff_on_fresh_connection iso_date iso_parse notebook_conn
           "2008-12-31" "2009-01-01" "2013-12-31" scenario_world scenario_literals).
  - intros n. apply lookup_empty.
  - do 3 (split; [by eexists|]). exists scenario_sentences.
    split; [reflexivity|]. repeat split; by eexists.
Defined.

Lemma missing_column_raises_witness :
  ∃ c, c ∈ sentences_columns ∧
       scenario_call notebook_conn narrow_world
         = (drop_table_if_exists notebook_conn "sentences_prep" narrow_world,
            Raise (OperationalError (no_such_column c))).
Proof.
  apply (missing_column_raises iso_date iso_parse notebook_conn
           "2008-12-31" "2009-01-01" "2013-12-31" notebook_conn narrow_world
           (Datetime 2008 12 31) (Datetime 2009 1 1) (Datetime 2013 12 31)
           narrow_sentences); try reflexivity.
  - by intros [[? ?] _].
  - exists "actual_sentence_end_date". split; [|reflexivity].
    unfold sentences_columns. set_solver.
Defined.

Lemma temporary_table_hides_labels_witness :
  ∃ py pz, iso_parse "2009-01-01" = Some py ∧ iso_parse "2013-12-31" = Some pz ∧
    ∀ t, temporary shadow_world !! (second_conn, recidivism_labels_name (year py) (year pz))
           = Some t →
         sentences_prep [] = t.
Proof.
  apply (temporary_table_hides_labels iso_date iso_parse notebook_conn
           "2008-12-31" "2009-01-01" "2013-12-31" second_conn shadow_world
           (scenario_call second_conn shadow_world).1 (sentences_prep [])).
  - done.
  - exact shadow_run.
Defined.

